(** * The file dashboard: upload, extract, compose, export

    A shallow embedding of the three Streamlit scripts of the repository:

    - [App1]: [src/advanced_app.py];
    - [App2]: [src/advanced_stylish_app.py], lines 1-187 (the styled script);
    - [App3]: [src/advanced_stylish_app.py], lines 190-393 ([app (3).py]).

    A Python [str] is a list of Unicode code points and a [bytes] value a list
    of octets, both held in [N].  The builtins the scripts call ([strip],
    [lower], [endswith], [split], [join], [splitlines], [encode],
    [os.path.splitext]) are written out in [Py].  PyPDF2 and python-docx are not
    part of the repository: a run receives them through [Env], either missing
    (the guarded [import] failed) or as the functions the scripts call, each
    of which answers with its result or with its failure.

    A run of a script is a value of the monad [M]: the trace of what the run
    did (errors, warnings, previews and download buttons it put on the page,
    the read of the upload, the calls of a parser) and either its normal end
    or the exception that ended it.  Titles, banners and captions ([st.title],
    [st.markdown], [st.info], [st.success], [st.subheader]) print fixed text
    and are not part of the trace.  A widget that shows a text of the run
    ([st.text_area], [st.code], [st.text]) sends it to the browser as UTF-8
    and raises where the text has no encoding.  Line numbers of App2 and App3
    are those of [src/advanced_stylish_app.py]. *)

From Stdlib Require Import String Ascii.
From Stdlib Require Import List NArith ZArith Lia Bool.
Import ListNotations.

Open Scope N_scope.

(** ** Python builtins *)

Module Py.

Definition str := list N.
Definition bytes := list N.

(** A literal of the source made of ASCII characters only. *)
Definition lit (s : string) : str := map N_of_ascii (list_ascii_of_string s).

Definition LF : N := 10.

(** The separator ["\n\n"]. *)
Definition blank_line : str := [LF; LF].

(** Truth value of a [str]: the empty string is false. *)
Definition truthy (s : str) : bool :=
  match s with [] => false | _ :: _ => true end.

Definition str_eqb (a b : str) : bool :=
  if list_eq_dec N.eq_dec a b then true else false.

(** [str.isspace] on one code point: CPython's [_PyUnicode_IsWhitespace]. *)
Definition isspace (c : N) : bool :=
  ((0x09 <=? c) && (c <=? 0x0D)) || ((0x1C <=? c) && (c <=? 0x20))
  || (c =? 0x85) || (c =? 0xA0) || (c =? 0x1680)
  || ((0x2000 <=? c) && (c <=? 0x200A))
  || (c =? 0x2028) || (c =? 0x2029) || (c =? 0x202F) || (c =? 0x205F)
  || (c =? 0x3000).

Fixpoint lstrip (s : str) : str :=
  match s with
  | [] => []
  | c :: r => if isspace c then lstrip r else s
  end.

Definition rstrip (s : str) : str := rev (lstrip (rev s)).

(** [s.strip()]: whitespace is dropped at both ends. *)
Definition strip (s : str) : str := rstrip (lstrip s).

(** [sep.join(l)]. *)
Fixpoint join (sep : str) (l : list str) : str :=
  match l with
  | [] => []
  | x :: r => match r with [] => x | _ :: _ => x ++ sep ++ join sep r end
  end.

(** [s.split(sep)] for a separator of one code point; the scripts only call
    [split("\n")]. *)
Fixpoint split (sep : N) (s : str) : list str :=
  match s with
  | [] => [[]]
  | c :: r =>
      if c =? sep then [] :: split sep r
      else match split sep r with
           | [] => [[c]]
           | l :: ls => (c :: l) :: ls
           end
  end.

(** Line boundaries of [str.splitlines], ["\r\n"] apart. *)
Definition is_linebreak (c : N) : bool :=
  ((0x0A <=? c) && (c <=? 0x0D)) || ((0x1C <=? c) && (c <=? 0x1E))
  || (c =? 0x85) || (c =? 0x2028) || (c =? 0x2029).

(** [cur] is the line being read, last code point first. *)
Fixpoint splitlines_from (cur : str) (s : str) : list str :=
  match s with
  | [] => match cur with [] => [] | _ :: _ => [rev cur] end
  | c :: r =>
      if c =? 0x0D then
        match r with
        | d :: r' => if d =? 0x0A then rev cur :: splitlines_from [] r'
                     else rev cur :: splitlines_from [] r
        | [] => [rev cur]
        end
      else if is_linebreak c then rev cur :: splitlines_from [] r
      else splitlines_from (c :: cur) r
  end.

Definition splitlines (s : str) : list str := splitlines_from [] s.

(** [s.lower()].  ASCII capitals are lowered; a code point outside ASCII is
    left in place.  CPython lowers those with its Unicode tables, which send
    no code point outside ASCII to one of [. p d f o c x], so the suffix tests
    of the scripts, the only readers of a lowered string, get CPython's answer. *)
Definition lower_cp (c : N) : N :=
  if (0x41 <=? c) && (c <=? 0x5A) then c + 0x20 else c.

Definition lower (s : str) : str := map lower_cp s.

(** [s.endswith(suffix)]. *)
Definition endswith (s suffix : str) : bool :=
  if (length suffix <=? length s)%nat
  then str_eqb (skipn (length s - length suffix) s) suffix
  else false.

(** [s.endswith((a, b, ...))]. *)
Definition endswith_any (s : str) (suffixes : list str) : bool :=
  existsb (endswith s) suffixes.

(** [s.rfind(c)] for one code point: the highest index of [c], or [-1]. *)
Fixpoint rfind_from (i : Z) (last : Z) (s : str) (c : N) : Z :=
  match s with
  | [] => last
  | x :: r => rfind_from (i + 1) (if x =? c then i else last) r c
  end.

Definition rfind (s : str) (c : N) : Z := rfind_from 0 (-1) s c.

(** [s[:i]] and [s[i:]] for [0 <= i]. *)
Definition upto (s : str) (i : Z) : str := firstn (Z.to_nat i) s.
Definition from (s : str) (i : Z) : str := skipn (Z.to_nat i) s.

(** The loop of [genericpath._splitext] over [p[filenameIndex:dotIndex]]: it
    answers at the first code point that is not a dot. *)
Fixpoint has_non_dot (l : str) : bool :=
  match l with
  | [] => false
  | c :: r => if c =? 0x2E then has_non_dot r else true
  end.

(** [os.path.splitext] of [posixpath]: [sep] is ["/"], there is no [altsep],
    [extsep] is ["."]. *)
Definition splitext (p : str) : str * str :=
  let sepIndex := rfind p 0x2F in
  let dotIndex := rfind p 0x2E in
  if (sepIndex <? dotIndex)%Z then
    let filenameIndex := (sepIndex + 1)%Z in
    if has_non_dot (upto (from p filenameIndex) (dotIndex - filenameIndex))
    then (upto p dotIndex, from p dotIndex)
    else (p, [])
  else (p, []).

(** *** UTF-8 *)

Definition is_surrogate (c : N) : bool := (0xD800 <=? c) && (c <=? 0xDFFF).

(** One code point as CPython's encoder writes it; [None] where it raises
    [UnicodeEncodeError] (a surrogate).  A [str] holds no code point above
    [0x10FFFF]; the encoder has no bytes for one. *)
Definition encode_cp (c : N) : option bytes :=
  if c <? 0x80 then Some [c]
  else if c <? 0x800 then
    Some [N.lor 0xC0 (N.shiftr c 6); N.lor 0x80 (N.land c 0x3F)]
  else if is_surrogate c then None
  else if c <? 0x10000 then
    Some [N.lor 0xE0 (N.shiftr c 12);
          N.lor 0x80 (N.land (N.shiftr c 6) 0x3F);
          N.lor 0x80 (N.land c 0x3F)]
  else if c <? 0x110000 then
    Some [N.lor 0xF0 (N.shiftr c 18);
          N.lor 0x80 (N.land (N.shiftr c 12) 0x3F);
          N.lor 0x80 (N.land (N.shiftr c 6) 0x3F);
          N.lor 0x80 (N.land c 0x3F)]
  else None.

(** [s.encode("utf-8")]. *)
Fixpoint encode_utf8 (s : str) : option bytes :=
  match s with
  | [] => Some []
  | c :: r =>
      match encode_cp c, encode_utf8 r with
      | Some b, Some bs => Some (b ++ bs)
      | _, _ => None
      end
  end.

Definition is_cont (b : N) : bool := (0x80 <=? b) && (b <=? 0xBF).

Definition cont_bits (b : N) : N := N.land b 0x3F.

(** [b.decode("utf-8")], strict: [None] on a truncated or overlong sequence,
    a stray continuation byte, an encoded surrogate or a value above
    [0x10FFFF]. *)
Fixpoint decode_utf8 (b : bytes) : option str :=
  match b with
  | [] => Some []
  | b0 :: t0 =>
      if b0 <? 0x80 then option_map (cons b0) (decode_utf8 t0)
      else if (0xC2 <=? b0) && (b0 <=? 0xDF) then
        match t0 with
        | b1 :: t1 =>
            if is_cont b1
            then option_map
                   (cons (N.lor (N.shiftl (N.land b0 0x1F) 6) (cont_bits b1)))
                   (decode_utf8 t1)
            else None
        | _ => None
        end
      else if (0xE0 <=? b0) && (b0 <=? 0xEF) then
        match t0 with
        | b1 :: b2 :: t2 =>
            if is_cont b1 && is_cont b2
               && (negb (b0 =? 0xE0) || (0xA0 <=? b1))
               && (negb (b0 =? 0xED) || (b1 <=? 0x9F))
            then option_map
                   (cons (N.lor (N.shiftl (N.land b0 0x0F) 12)
                            (N.lor (N.shiftl (cont_bits b1) 6) (cont_bits b2))))
                   (decode_utf8 t2)
            else None
        | _ => None
        end
      else if (0xF0 <=? b0) && (b0 <=? 0xF4) then
        match t0 with
        | b1 :: b2 :: b3 :: t3 =>
            if is_cont b1 && is_cont b2 && is_cont b3
               && (negb (b0 =? 0xF0) || (0x90 <=? b1))
               && (negb (b0 =? 0xF4) || (b1 <=? 0x8F))
            then option_map
                   (cons (N.lor (N.shiftl (N.land b0 0x07) 18)
                            (N.lor (N.shiftl (cont_bits b1) 12)
                               (N.lor (N.shiftl (cont_bits b2) 6) (cont_bits b3)))))
                   (decode_utf8 t3)
            else None
        | _ => None
        end
      else None
  end.

End Py.

Import Py.

(** ** What a run sees and does *)

Inductive Operation := Read | Write | Append.

(** The two parsers, named by the format they read. *)
Inductive format := PDF | DOCX.

(** What [st.error] puts on the page, by kind rather than by message text, and
    the exceptions a run can raise.

    - [NoFileUploaded]: App3 line 285;
    - [FileTooLarge]: App3 line 289, with the size it reports;
    - [UnsupportedFormat]: App1 line 64, App2 line 94, App3 line 291;
    - [NotInstalled]: the guarded import of the library failed (App1 30 and 38,
      App2 55 and 63, App3 232, 246 and 257);
    - [ExtractionFailed]: App3 lines 242 and 253, with the library's message;
    - [UnexpectedError]: App3 line 303;
    - [EmptyInputError]: the Write or Append text box is blank (App1 101
      and 113, App2 150 and 170, App3 341 and 369);
    - [BuilderFailed]: App3 lines 337, 365 and 393. *)
Inductive error :=
| NoFileUploaded
| FileTooLarge (filesize : N)
| UnsupportedFormat
| NotInstalled (lib : format)
| ExtractionFailed (f : format) (cause : string)
| UnexpectedError (e : exception)
| EmptyInputError (op : Operation)
| BuilderFailed (e : exception)
with exception :=
| RuntimeError (what : error)
| LibraryError (cause : string)
| AttributeError
| UnicodeEncodeError
| StopException.

(** A python-docx document, read as the texts of its paragraphs in order:
    what [p.text] gives for each [p] of [document.paragraphs].
    [docx.Document()] is empty. *)
Record Document := { paragraphs : list str }.

Definition new_document : Document := {| paragraphs := [] |}.

(** The [data] of a download button.  The bytes [document.save] writes are
    python-docx's business; a saved document stands for them. *)
Inductive payload :=
| txt_bytes (b : bytes)
| docx_bytes (d : Document).

Inductive event :=
| st_error (e : error)
| st_warning                   (* "No extractable text found ..." *)
| st_preview (shown : str)     (* st.text_area, st.code, st.text *)
| st_download_button (label : string) (data : payload)
                     (file_name : str) (mime : string)
| upload_read                  (* uploaded_file.read() *)
| parser_called (f : format) (data : bytes).

(** The third-party libraries of a run.  [PdfReader data] answers with the
    library's failure or with what [extract_text] gives on each page ([None]
    or a string); [docx], the module, is its [Document] on the bytes of a
    file: the failure or the text of each paragraph.  [paragraph_of line] is
    what [add_paragraph(line)] of that module does with a line: the library's
    failure (python-docx refuses what XML cannot hold), or the text of the
    paragraph it stores, as a reader of the saved file finds it (which need
    not be the line: python-docx keeps a carriage return as a line break). *)
Record Env := {
  PdfReader : option (bytes -> string + list (option str));
  docx : option (bytes -> string + list str);
  paragraph_of : str -> string + str
}.

(** What Streamlit keeps of an upload.  The name reached it as UTF-8 in the
    request of the browser. *)
Record UploadedFile := { name : str; size : N; content : bytes }.

(** The state of the widgets when the script runs.  Each script reads its own:
    [convert_button], [show_preview], [download_txt] and [download_docx]
    belong to App1 and App2, the three [..._as_...] and [show_full_preview]
    to App3. *)
Record Widgets := {
  uploaded_file : option UploadedFile;
  operation : Operation;
  user_text : str;
  process_button : bool;
  convert_button : bool;
  show_preview : bool;
  download_txt : bool;
  download_docx : bool;
  download_as_docx : bool;
  download_as_txt : bool;
  show_full_preview : bool
}.

(** *** The monad of runs *)

Definition M (A : Type) : Type := list event * (exception + A).

Definition ret {A} (a : A) : M A := ([], inr a).

Definition raise {A} (e : exception) : M A := ([], inl e).

Definition emit (ev : event) : M unit := ([ev], inr tt).

Definition bind {A B} (m : M A) (k : A -> M B) : M B :=
  match m with
  | (t, inl e) => (t, inl e)
  | (t, inr a) => let (t', r) := k a in (t ++ t', r)
  end.

(** [try: m except Exception as e: h e]. *)
Definition catch {A} (m : M A) (h : exception -> M A) : M A :=
  match m with
  | (t, inl e) => let (t', r) := h e in (t ++ t', r)
  | (t, inr a) => (t, inr a)
  end.

Notation "x <- m ;; k" := (bind m (fun x => k))
  (at level 61, m at next level, right associativity).
Notation "m ;; k" := (bind m (fun _ => k))
  (at level 61, right associativity).

Definition when (b : bool) (m : M unit) : M unit := if b then m else ret tt.

Definition trace {A} (m : M A) : list event := fst m.

(** *** Expressions the scripts share *)

(** [uploaded_file.read()]. *)
Definition read (u : UploadedFile) : M bytes :=
  emit upload_read ;; ret (content u).

(** [st.text_area(label, shown)], [st.code(shown)], [st.text(shown)]. *)
Definition preview (shown : str) : M unit :=
  match encode_utf8 shown with
  | Some _ => emit (st_preview shown)
  | None => raise UnicodeEncodeError
  end.

(** [text.encode("utf-8")] as the data of a download. *)
Definition encode (text : str) : M payload :=
  match encode_utf8 text with
  | Some b => ret (txt_bytes b)
  | None => raise UnicodeEncodeError
  end.

(** [text[:2000] + ("\n\n... (truncated)" if len(text)>2000 else "")]. *)
Definition first2000 (text : str) : str :=
  firstn 2000 text
  ++ (if (2000 <? length text)%nat then blank_line ++ lit "... (truncated)" else []).

(** ["\n".join(text.splitlines()[:30])
     + ("\n\n... (truncated)" if len(text.splitlines())>30 else "")]. *)
Definition first30lines (text : str) : str :=
  join [LF] (firstn 30 (splitlines text))
  ++ (if (30 <? length (splitlines text))%nat
      then blank_line ++ lit "... (truncated)" else []).

(** [x is not None]. *)
Definition is_some {A} (o : option A) : bool :=
  match o with Some _ => true | None => false end.

(** [os.path.splitext(filename)[0]]. *)
Definition stem (filename : str) : str := fst (splitext filename).

Definition docx_mime : string :=
  "application/vnd.openxmlformats-officedocument.wordprocessingml.document".

(** [document.add_paragraph(line)]: the library's failure, or the document
    with one paragraph more at its end. *)
Definition add_paragraph (env : Env) (document : Document) (line : str)
  : string + Document :=
  match paragraph_of env line with
  | inl cause => inl cause
  | inr stored => inr {| paragraphs := paragraphs document ++ [stored] |}
  end.

(** [for line in lines: document.add_paragraph(line)]: the loop ends at the
    first line the library fails on. *)
Fixpoint add_lines (env : Env) (document : Document) (lines : list str)
  : string + Document :=
  match lines with
  | [] => inr document
  | line :: rest =>
      match add_paragraph env document line with
      | inl cause => inl cause
      | inr document' => add_lines env document' rest
      end
  end.

(** ** [src/advanced_app.py] *)

Module App1.

Definition allowed_filetype (filename : str) : bool :=
  endswith_any (lower filename) [lit ".pdf"; lit ".docx"].

(** [x or ""]. *)
Definition or_empty (x : option str) : str :=
  match x with
  | Some txt => if truthy txt then txt else []
  | None => []
  end.

Definition extract_pdf_text (env : Env) (data : bytes) : M str :=
  match PdfReader env with
  | None => emit (st_error (NotInstalled PDF)) ;; ret []
  | Some reader =>
      emit (parser_called PDF data) ;;
      match reader data with
      | inl cause => raise (LibraryError cause)
      | inr pages =>
          let texts := map or_empty pages in
          ret (strip (join blank_line texts))
      end
  end.

Definition extract_docx_text (env : Env) (data : bytes) : M str :=
  match docx env with
  | None => emit (st_error (NotInstalled DOCX)) ;; ret []
  | Some docx_Document =>
      emit (parser_called DOCX data) ;;
      match docx_Document data with
      | inl cause => raise (LibraryError cause)
      | inr document_paragraphs =>
          ret (strip (join blank_line (filter truthy document_paragraphs)))
      end
  end.

(** With [docx] missing, [docx.Document()] is an attribute of [None]. *)
Definition create_docx_bytes_from_text (env : Env) (text : str) : M payload :=
  match docx env with
  | None => raise AttributeError
  | Some _ =>
      match add_lines env new_document (split LF text) with
      | inl cause => raise (LibraryError cause)
      | inr document => ret (docx_bytes document)
      end
  end.

Definition script (env : Env) (w : Widgets) : M unit :=
  match uploaded_file w with
  | None => ret tt
  | Some u =>
      let filename := name u in
      raw <- read u ;;
      let is_pdf := endswith (lower filename) (lit ".pdf") in
      let is_docx := endswith (lower filename) (lit ".docx") in
      if negb (allowed_filetype filename) then emit (st_error UnsupportedFormat)
      else if is_pdf then
        (* the select box offers ("Read",) alone *)
        let operation := Read in
        match operation with
        | Read =>
            text <- extract_pdf_text env raw ;;
            if truthy text then
              preview (first2000 text) ;;
              when (convert_button w)
                (docx_b <- create_docx_bytes_from_text env text ;;
                 emit (st_download_button "Download Word File" docx_b
                         (stem filename ++ lit ".docx") docx_mime))
            else emit st_warning
        | _ => ret tt
        end
      else if is_docx then
        text <- extract_docx_text env raw ;;
        when (process_button w)
          match operation w with
          | Read => preview (first2000 text)
          | Write =>
              if negb (truthy (strip (user_text w)))
              then emit (st_error (EmptyInputError Write))
              else
                let new_content := strip (user_text w) in
                data <- create_docx_bytes_from_text env new_content ;;
                emit (st_download_button "Download Written Word File" data
                        (stem filename ++ lit "_written.docx") docx_mime)
          | Append =>
              if negb (truthy (strip (user_text w)))
              then emit (st_error (EmptyInputError Append))
              else
                let new_content := text ++ blank_line ++ strip (user_text w) in
                data <- create_docx_bytes_from_text env new_content ;;
                emit (st_download_button "Download Appended Word File" data
                        (stem filename ++ lit "_appended.docx") docx_mime)
          end
      else ret tt
  end.

End App1.

(** ** [src/advanced_stylish_app.py], lines 1-187 *)

Module App2.

Definition allowed_filetype (filename : str) : bool :=
  endswith_any (lower filename) [lit ".pdf"; lit ".docx"].

Definition extract_pdf_text (env : Env) (data : bytes) : M str :=
  match PdfReader env with
  | None => emit (st_error (NotInstalled PDF)) ;; ret []
  | Some reader =>
      emit (parser_called PDF data) ;;
      match reader data with
      | inl cause => raise (LibraryError cause)
      | inr pages =>
          let texts := map App1.or_empty pages in
          ret (strip (join blank_line texts))
      end
  end.

Definition extract_docx_text (env : Env) (data : bytes) : M str :=
  match docx env with
  | None => emit (st_error (NotInstalled DOCX)) ;; ret []
  | Some docx_Document =>
      emit (parser_called DOCX data) ;;
      match docx_Document data with
      | inl cause => raise (LibraryError cause)
      | inr document_paragraphs =>
          ret (strip (join blank_line (filter truthy document_paragraphs)))
      end
  end.

Definition create_docx_bytes_from_text (env : Env) (text : str) : M payload :=
  match docx env with
  | None => raise AttributeError
  | Some _ =>
      match add_lines env new_document (split LF text) with
      | inl cause => raise (LibraryError cause)
      | inr document => ret (docx_bytes document)
      end
  end.

Definition script (env : Env) (w : Widgets) : M unit :=
  match uploaded_file w with
  | None => ret tt
  | Some u =>
      let filename := name u in
      raw <- read u ;;
      let is_pdf := endswith (lower filename) (lit ".pdf") in
      let is_docx := endswith (lower filename) (lit ".docx") in
      if negb (allowed_filetype filename) then emit (st_error UnsupportedFormat)
      else if is_pdf then
        text <- extract_pdf_text env raw ;;
        if truthy text then
          preview (if show_preview w then text else first2000 text) ;;
          when (convert_button w)
            (docx_b <- create_docx_bytes_from_text env text ;;
             emit (st_download_button "💾 Download Word File" docx_b
                     (stem filename ++ lit ".docx") docx_mime))
        else emit st_warning
      else if is_docx then
        text <- extract_docx_text env raw ;;
        when (process_button w)
          match operation w with
          | Read =>
              preview (if show_preview w then text else first2000 text) ;;
              when (download_txt w)
                (data <- encode text ;;
                 emit (st_download_button "💾 Download as .txt" data
                         (stem filename ++ lit "_read.txt") "text/plain")) ;;
              when (download_docx w && is_some (docx env))
                (data <- create_docx_bytes_from_text env text ;;
                 emit (st_download_button "💾 Download as .docx" data
                         (stem filename ++ lit "_read.docx") docx_mime))
          | Write =>
              if negb (truthy (strip (user_text w)))
              then emit (st_error (EmptyInputError Write))
              else
                let new_content := strip (user_text w) in
                when (download_txt w)
                  (data <- encode new_content ;;
                   emit (st_download_button "Download Written as .txt" data
                           (stem filename ++ lit "_written.txt") "text/plain")) ;;
                when (download_docx w && is_some (docx env))
                  (data <- create_docx_bytes_from_text env new_content ;;
                   emit (st_download_button "Download Written as .docx" data
                           (stem filename ++ lit "_written.docx") docx_mime))
          | Append =>
              if negb (truthy (strip (user_text w)))
              then emit (st_error (EmptyInputError Append))
              else
                let new_content := text ++ blank_line ++ strip (user_text w) in
                when (download_txt w)
                  (data <- encode new_content ;;
                   emit (st_download_button "Download Appended as .txt" data
                           (stem filename ++ lit "_appended.txt") "text/plain")) ;;
                when (download_docx w && is_some (docx env))
                  (data <- create_docx_bytes_from_text env new_content ;;
                   emit (st_download_button "Download Appended as .docx" data
                           (stem filename ++ lit "_appended.docx") docx_mime))
          end
      else ret tt
  end.

End App2.

(** ** [src/advanced_stylish_app.py], lines 190-393 *)

Module App3.

Definition MAX_FILE_SIZE_MB : N := 10.

Definition get_file_meta (uploaded : UploadedFile) : str * N :=
  (name uploaded, size uploaded).

Definition allowed_filetype (filename : str) : bool :=
  let allowed := [lit ".pdf"; lit ".docx"] in
  endswith_any (lower filename) allowed.

(** The loop of lines 236-239: a page with text adds it to [texts]. *)
Fixpoint page_loop (pages : list (option str)) (texts : list str) : list str :=
  match pages with
  | [] => texts
  | p :: rest =>
      match p with
      | Some txt => if truthy txt then page_loop rest (texts ++ [txt])
                    else page_loop rest texts
      | None => page_loop rest texts
      end
  end.

Definition extract_text_from_pdf_bytes (env : Env) (data : bytes) : M str :=
  match PdfReader env with
  | None => raise (RuntimeError (NotInstalled PDF))
  | Some reader =>
      emit (parser_called PDF data) ;;
      match reader data with
      | inl cause => raise (RuntimeError (ExtractionFailed PDF cause))
      | inr pages =>
          let texts := page_loop pages [] in
          ret (strip (join blank_line texts))
      end
  end.

Definition extract_text_from_docx_bytes (env : Env) (data : bytes) : M str :=
  match docx env with
  | None => raise (RuntimeError (NotInstalled DOCX))
  | Some docx_Document =>
      emit (parser_called DOCX data) ;;
      match docx_Document data with
      | inl cause => raise (RuntimeError (ExtractionFailed DOCX cause))
      | inr document_paragraphs =>
          let paragraphs := filter truthy document_paragraphs in
          ret (strip (join blank_line paragraphs))
      end
  end.

Definition create_docx_bytes_from_text (env : Env) (text : str) : M payload :=
  match docx env with
  | None => raise (RuntimeError (NotInstalled DOCX))
  | Some _ =>
      match add_lines env new_document (split LF text) with
      | inl cause => raise (LibraryError cause)
      | inr document => ret (docx_bytes document)
      end
  end.

(** Lines 294-304: the extraction and its two [except] clauses. *)
Definition extracting (env : Env) (filename : str) (raw : bytes)
  : M (option str) :=
  catch
    (extracted <- (if endswith (lower filename) (lit ".pdf")
                   then extract_text_from_pdf_bytes env raw
                   else extract_text_from_docx_bytes env raw) ;;
     ret (Some extracted))
    (fun e =>
       match e with
       | RuntimeError what => emit (st_error what) ;; ret None
       | _ => emit (st_error (UnexpectedError e)) ;; ret None
       end).

Definition script (env : Env) (w : Widgets) : M unit :=
  when (process_button w)
    match uploaded_file w with
    | None => emit (st_error NoFileUploaded)
    | Some u =>
        let '(filename, filesize) := get_file_meta u in
        if MAX_FILE_SIZE_MB * 1024 * 1024 <? filesize
        then emit (st_error (FileTooLarge filesize))
        else if negb (allowed_filetype filename)
        then emit (st_error UnsupportedFormat)
        else
          raw <- read u ;;
          extracted <- extracting env filename raw ;;
          match extracted with
          | None => raise StopException
          | Some extracted =>
              match operation w with
              | Read =>
                  when (negb (truthy (strip extracted))) (emit st_warning) ;;
                  preview (if show_full_preview w then extracted
                           else first30lines extracted) ;;
                  when (download_as_txt w)
                    (data <- encode extracted ;;
                     emit (st_download_button "Download extracted text (.txt)"
                             data (stem filename ++ lit "_extracted.txt")
                             "text/plain")) ;;
                  when (download_as_docx w && is_some (docx env))
                    (catch
                       (docx_b <- create_docx_bytes_from_text env extracted ;;
                        emit (st_download_button
                                "Download extracted content (.docx)" docx_b
                                (stem filename ++ lit "_extracted.docx")
                                docx_mime))
                       (fun e => emit (st_error (BuilderFailed e))))
              | Write =>
                  if negb (truthy (strip (user_text w)))
                  then emit (st_error (EmptyInputError Write))
                  else
                    let updated := strip (user_text w) in
                    preview (first2000 updated) ;;
                    when (download_as_txt w)
                      (data <- encode updated ;;
                       emit (st_download_button
                               "Download replaced content (.txt)" data
                               (stem filename ++ lit "_written.txt")
                               "text/plain")) ;;
                    when (download_as_docx w && is_some (docx env))
                      (catch
                         (docx_b <- create_docx_bytes_from_text env updated ;;
                          emit (st_download_button
                                  "Download replaced content (.docx)" docx_b
                                  (stem filename ++ lit "_written.docx")
                                  docx_mime))
                         (fun e => emit (st_error (BuilderFailed e))))
              | Append =>
                  if negb (truthy (strip (user_text w)))
                  then emit (st_error (EmptyInputError Append))
                  else
                    let appended :=
                      extracted ++ blank_line ++ strip (user_text w) in
                    preview (first2000 appended) ;;
                    when (download_as_txt w)
                      (data <- encode appended ;;
                       emit (st_download_button
                               "Download appended content (.txt)" data
                               (stem filename ++ lit "_appended.txt")
                               "text/plain")) ;;
                    when (download_as_docx w && is_some (docx env))
                      (catch
                         (docx_b <- create_docx_bytes_from_text env appended ;;
                          emit (st_download_button
                                  "Download appended content (.docx)" docx_b
                                  (stem filename ++ lit "_appended.docx")
                                  docx_mime))
                         (fun e => emit (st_error (BuilderFailed e))))
              end
          end
    end.

End App3.

(** ** The three scripts side by side *)

Inductive app_id := app1 | app2 | app3.

Definition run (a : app_id) (env : Env) (w : Widgets) : M unit :=
  match a with
  | app1 => App1.script env w
  | app2 => App2.script env w
  | app3 => App3.script env w
  end.

(** ** Vocabulary of the properties *)

Definition space (c : N) : Prop := isspace c = true.

(** No whitespace at either end. *)
Definition bare (t : str) : Prop :=
  (forall c r, t = c :: r -> isspace c = false)
  /\ (forall r c, t = r ++ [c] -> isspace c = false).

(** [t] is [s] with its leading and trailing whitespace removed. *)
Definition trim_of (s t : str) : Prop :=
  exists l r, s = l ++ t ++ r /\ Forall space l /\ Forall space r /\ bare t.

Definition suffix_of (s suffix : str) : Prop := exists p, s = p ++ suffix.

(** [ls] are the lines of [text]: they hold no line feed and give [text]
    back when a line feed is put between them. *)
Definition lines_of (text : str) (ls : list str) : Prop :=
  ls <> [] /\ join [LF] ls = text /\ Forall (fun l => ~ In LF l) ls.

(** [kept ps ks]: [ks] are the members of [ps] that are not empty, in the
    order of [ps]. *)
Inductive kept : list str -> list str -> Prop :=
| kept_nil : kept [] []
| kept_skip ps ks : kept ps ks -> kept ([] :: ps) ks
| kept_keep p ps ks : p <> [] -> kept ps ks -> kept (p :: ps) (p :: ks).

(** A Unicode scalar value: a code point that is no surrogate. *)
Definition scalar (c : N) : Prop := c < 0x110000 /\ is_surrogate c = false.

(** The text an export holds: a text file decoded, a document's paragraphs
    one per line. *)
Definition payload_text (d : payload) : option str :=
  match d with
  | txt_bytes b => decode_utf8 b
  | docx_bytes d => Some (join [LF] (paragraphs d))
  end.

(** [ps] are the paragraphs the library stores for [lines]: one for each
    line, in the order of the lines. *)
Definition stored (env : Env) (lines ps : list str) : Prop :=
  Forall2 (fun line p => paragraph_of env line = inr p) lines ps.

(** The library stores each of [lines] as it is. *)
Definition verbatim (env : Env) (lines : list str) : Prop :=
  Forall (fun line => paragraph_of env line = inr line) lines.

(** The library fails with [cause] on one of [lines], having stored the
    lines before it. *)
Definition refused (env : Env) (lines : list str) (cause : string) : Prop :=
  exists before line rest ps,
    lines = before ++ line :: rest
    /\ stored env before ps
    /\ paragraph_of env line = inl cause.

(** The export [d] holds [text]: a text file that decodes to [text], or a
    Word file whose paragraphs are those the library stores for the lines of
    [text]. *)
Definition holds (env : Env) (d : payload) (text : str) : Prop :=
  match d with
  | txt_bytes b => decode_utf8 b = Some text
  | docx_bytes document => stored env (split LF text) (paragraphs document)
  end.

Definition errors (t : list event) : list error :=
  flat_map (fun ev => match ev with st_error e => [e] | _ => [] end) t.

Definition parser_calls (t : list event) : list (format * bytes) :=
  flat_map (fun ev => match ev with parser_called f d => [(f, d)] | _ => [] end) t.

Definition downloads (t : list event) : list (payload * str * string) :=
  flat_map (fun ev => match ev with
                      | st_download_button _ d n m => [(d, n, m)]
                      | _ => []
                      end) t.

Definition previews (t : list event) : list str :=
  flat_map (fun ev => match ev with st_preview s => [s] | _ => [] end) t.


(** The run of script [a] gets to its operation with [extracted] in hand: a
    file is uploaded, Process is pressed, the checks before the operation pass
    and the extraction returns [extracted].  App1 and App2 offer the
    operations on a Word upload only. *)
Definition composing (a : app_id) (env : Env) (w : Widgets)
  (u : UploadedFile) (extracted : str) : Prop :=
  uploaded_file w = Some u /\ process_button w = true /\
  match a with
  | app1 =>
      endswith (lower (name u)) (lit ".docx") = true
      /\ snd (App1.extract_docx_text env (content u)) = inr extracted
  | app2 =>
      endswith (lower (name u)) (lit ".docx") = true
      /\ snd (App2.extract_docx_text env (content u)) = inr extracted
  | app3 =>
      size u <= App3.MAX_FILE_SIZE_MB * 1024 * 1024
      /\ App3.allowed_filetype (name u) = true
      /\ snd (App3.extracting env (name u) (content u)) = inr (Some extracted)
  end.

(** Whether the run was asked for a text file and for a Word file. *)
Definition wants_txt (a : app_id) (w : Widgets) : bool :=
  match a with
  | app1 => false
  | app2 => download_txt w
  | app3 => download_as_txt w
  end.

Definition wants_docx (a : app_id) (w : Widgets) : bool :=
  match a with
  | app1 => true
  | app2 => download_docx w
  | app3 => download_as_docx w
  end.

(** *** Sample runs *)

(** A code point XML has no place for: a control character below U+0020
    that is no tab, line feed or carriage return, a surrogate, U+FFFE or
    U+FFFF. *)
Definition xml_refused (c : N) : bool :=
  ((c <? 0x20) && negb ((c =? 0x09) || (c =? 0x0A) || (c =? 0x0D)))
  || is_surrogate c || (c =? 0xFFFE) || (c =? 0xFFFF).

(** A writer in the manner of python-docx: a line that holds such a code
    point is refused; a carriage return is kept as a line break, which a
    reader finds as a line feed; any other character is stored as it is. *)
Definition sample_paragraph (line : str) : string + str :=
  if existsb xml_refused line
  then inl "All strings must be XML compatible"%string
  else inr (map (fun c => if c =? 0x0D then LF else c) line).

(** Both libraries installed: every PDF has the pages [pages], every Word
    file the paragraphs [paras]. *)
Definition libraries (pages : list (option str)) (paras : list str) : Env :=
  {| PdfReader := Some (fun _ => inr pages);
     docx := Some (fun _ => inr paras);
     paragraph_of := sample_paragraph |}.

(** A page with [u] uploaded, every button pressed, every download asked
    for and the short previews. *)
Definition page (u : UploadedFile) (op : Operation) (text : str) : Widgets :=
  {| uploaded_file := Some u; operation := op; user_text := text;
     process_button := true; convert_button := true;
     show_preview := false; download_txt := true; download_docx := true;
     download_as_docx := true; download_as_txt := true;
     show_full_preview := false |}.

Definition file (filename : string) (filesize : N) : UploadedFile :=
  {| name := lit filename; size := filesize; content := [] |}.

(** The extraction and the Word builder of each script. *)
Definition pdf_extractor (a : app_id) : Env -> bytes -> M str :=
  match a with
  | app1 => App1.extract_pdf_text
  | app2 => App2.extract_pdf_text
  | app3 => App3.extract_text_from_pdf_bytes
  end.

Definition docx_extractor (a : app_id) : Env -> bytes -> M str :=
  match a with
  | app1 => App1.extract_docx_text
  | app2 => App2.extract_docx_text
  | app3 => App3.extract_text_from_docx_bytes
  end.

Definition docx_builder (a : app_id) : Env -> str -> M payload :=
  match a with
  | app1 => App1.create_docx_bytes_from_text
  | app2 => App2.create_docx_bytes_from_text
  | app3 => App3.create_docx_bytes_from_text
  end.

(** The texts of the pages that have one. *)
Definition page_texts (pages : list (option str)) : list str :=
  map App1.or_empty pages.

(** *** Export names *)

Inductive export_kind := as_txt | as_docx.

Definition kind_of (d : payload) : export_kind :=
  match d with txt_bytes _ => as_txt | docx_bytes _ => as_docx end.

Definition extension (k : export_kind) : string :=
  match k with as_txt => ".txt" | as_docx => ".docx" end.


(** The suffix of each operation as the specification lists them. *)
Definition listed_suffix (op : Operation) : string :=
  match op with
  | Read => "_extracted"
  | Write => "_written"
  | Append => "_appended"
  end.


(** The suffix each script uses: App2 marks what Read exports with [_read]. *)
Definition operation_suffix (a : app_id) (op : Operation) : string :=
  match a, op with
  | app2, Read => "_read"
  | _, _ => listed_suffix op
  end.

(** The plain Read-and-convert case: App1 and App2 on a PDF, which they
    offer as a Word file. *)
Definition converting (a : app_id) (filename : str) : Prop :=
  a <> app3 /\ suffix_of (lower filename) (lit ".pdf").

(** The name of an export of [d] made by script [a] from the upload
    [filename] under [op]: the stem and the extension of the kind, with the
    suffix of the operation between them, or, in the plain Read-and-convert
    case and there only, nothing between them. *)
Definition export_name (a : app_id) (op : Operation) (filename : str)
  (d : payload) (file_name : str) : Prop :=
  (~ converting a filename
   /\ file_name = stem filename ++ lit (operation_suffix a op)
                  ++ lit (extension (kind_of d)))
  \/ (converting a filename /\ kind_of d = as_docx
      /\ file_name = stem filename ++ lit (extension as_docx)).



(** ** More vocabulary *)

(** The text an operation works on: what was extracted for Read, the trimmed
    box for Write ([updated], [new_content]), both for Append ([appended]). *)
Definition result_text (op : Operation) (extracted box : str) : str :=
  match op with
  | Read => extracted
  | Write => strip box
  | Append => extracted ++ blank_line ++ strip box
  end.

(** A page list whose pages without text all stand at the start or at the
    end. *)
Definition blank_only_outside (texts : list str) : Prop :=
  exists pre mid post,
    texts = pre ++ mid ++ post
    /\ Forall (fun t => t = []) pre
    /\ Forall (fun t => t <> []) mid
    /\ Forall (fun t => t = []) post.

(** The marker of a cut preview, ["\n\n... (truncated)"]. *)
Definition truncated_mark : str := blank_line ++ lit "... (truncated)".

(** The parser an upload goes to, by the end of its lowered name (App3 line
    295; [is_pdf] and [is_docx] in App1 and App2). *)
Definition format_of (filename : str) : format :=
  if endswith (lower filename) (lit ".pdf") then PDF else DOCX.

(** The library for [f] is not installed. *)
Definition library_missing (env : Env) (f : format) : Prop :=
  match f with
  | PDF => PdfReader env = None
  | DOCX => docx env = None
  end.

(** The library for [f] is installed and fails on [data] with [cause]. *)
Definition parser_fails (env : Env) (f : format) (data : bytes)
  (cause : string) : Prop :=
  match f with
  | PDF => exists reader, PdfReader env = Some reader /\ reader data = inl cause
  | DOCX => exists opener, docx env = Some opener /\ opener data = inl cause
  end.

(** PyPDF2 alone installed. *)
Definition pdf_only (pages : list (option str)) : Env :=
  {| PdfReader := Some (fun _ => inr pages); docx := None;
     paragraph_of := sample_paragraph |}.

(** Both libraries installed and failing on every file. *)
Definition failing (cause : string) : Env :=
  {| PdfReader := Some (fun _ => inl cause);
     docx := Some (fun _ => inl cause);
     paragraph_of := sample_paragraph |}.

Definition no_libraries : Env :=
  {| PdfReader := None; docx := None; paragraph_of := sample_paragraph |}.

(** How many times a run read the upload. *)
Definition reads (t : list event) : nat :=
  length (filter (fun ev => match ev with upload_read => true | _ => false end) t).

(** The same widgets with another text in the box. *)
Definition with_user_text (w : Widgets) (box : str) : Widgets :=
  {| uploaded_file := uploaded_file w; operation := operation w;
     user_text := box;
     process_button := process_button w; convert_button := convert_button w;
     show_preview := show_preview w; download_txt := download_txt w;
     download_docx := download_docx w;
     download_as_docx := download_as_docx w;
     download_as_txt := download_as_txt w;
     show_full_preview := show_full_preview w |}.

(** The same widgets with another choice in the operation box. *)
Definition with_operation (w : Widgets) (op : Operation) : Widgets :=
  {| uploaded_file := uploaded_file w; operation := op;
     user_text := user_text w;
     process_button := process_button w; convert_button := convert_button w;
     show_preview := show_preview w; download_txt := download_txt w;
     download_docx := download_docx w;
     download_as_docx := download_as_docx w;
     download_as_txt := download_as_txt w;
     show_full_preview := show_full_preview w |}.

(** The preview each script shows under Read. *)
Definition read_preview (a : app_id) (w : Widgets) (text : str) : str :=
  match a with
  | app1 => first2000 text
  | app2 => if show_preview w then text else first2000 text
  | app3 => if show_full_preview w then text else first30lines text
  end.

(** The line feed is the only line boundary of [text]: no ["\r"], ["\v"],
    ["\f"], nor one of the separators [str.splitlines] knows. *)
Definition plain_breaks (text : str) : Prop :=
  Forall (fun c => is_linebreak c = true -> c = LF) text.
(** ** Facts about the builtins *)

Section Strip.

Lemma lstrip_split (s : str) :
  exists l, s = l ++ lstrip s /\ Forall space l.
Proof.
  induction s as [|c s IH]; simpl.
  - exists []; auto.
  - destruct (isspace c) eqn:Hc.
    + destruct IH as (l & Hl & Hsp).
      exists (c :: l); split.
      * simpl; congruence.
      * constructor; assumption.
    + exists []; auto.
Qed.

Lemma lstrip_head (s : str) c r :
  lstrip s = c :: r -> isspace c = false.
Proof.
  induction s as [|d s IH]; simpl; [discriminate|].
  destruct (isspace d) eqn:Hd; auto.
  intros [= <- _]; assumption.
Qed.

Lemma lstrip_spaces (l s : str) :
  Forall space l -> lstrip (l ++ s) = lstrip s.
Proof.
  induction 1 as [|c l Hc _ IH]; simpl; auto.
  rewrite Hc; assumption.
Qed.

Lemma lstrip_bare_head (c : N) (s : str) :
  isspace c = false -> lstrip (c :: s) = c :: s.
Proof. intros H; simpl; rewrite H; reflexivity. Qed.

Lemma rstrip_split (s : str) :
  exists r, s = rstrip s ++ r /\ Forall space r.
Proof.
  unfold rstrip.
  destruct (lstrip_split (rev s)) as (l & Hl & Hsp).
  exists (rev l); split.
  - rewrite <- rev_app_distr, <- Hl, rev_involutive; reflexivity.
  - apply Forall_rev; assumption.
Qed.

Lemma rstrip_last (s r : str) c :
  rstrip s = r ++ [c] -> isspace c = false.
Proof.
  unfold rstrip; intros H.
  apply (f_equal (@rev N)) in H.
  rewrite rev_involutive, rev_app_distr in H; simpl in H.
  eapply lstrip_head; eassumption.
Qed.

Lemma rstrip_spaces (s r : str) :
  Forall space r -> rstrip (s ++ r) = rstrip s.
Proof.
  intros H; unfold rstrip.
  rewrite rev_app_distr, lstrip_spaces; auto using Forall_rev.
Qed.

Lemma rstrip_bare_last (s : str) (c : N) :
  isspace c = false -> rstrip (s ++ [c]) = s ++ [c].
Proof.
  intros H; unfold rstrip.
  rewrite rev_app_distr; simpl; rewrite H.
  change (c :: rev s) with ([c] ++ rev s).
  rewrite rev_app_distr, rev_involutive; reflexivity.
Qed.

(** [strip] removes whitespace, and only whitespace, from both ends. *)
Lemma strip_trim (s : str) : trim_of s (strip s).
Proof.
  unfold strip.
  destruct (lstrip_split s) as (l & Hl & Hsl).
  destruct (rstrip_split (lstrip s)) as (r & Hr & Hsr).
  exists l, r; repeat split; auto.
  - rewrite <- Hr; assumption.
  - intros c t Ht.
    rewrite Ht in Hr; simpl in Hr.
    eapply lstrip_head; eassumption.
  - intros t c; apply rstrip_last.
Qed.

(** The trimmed string is determined by [trim_of]. *)
Lemma trim_unique (s t : str) : trim_of s t -> t = strip s.
Proof.
  intros (l & r & -> & Hl & Hr & Hhead & Hlast).
  unfold strip.
  rewrite lstrip_spaces by assumption.
  destruct t as [|c t].
  - simpl.
    destruct (lstrip_split r) as (l' & Hl' & _).
    assert (lstrip r = []) as ->.
    { rewrite <- (app_nil_r r), lstrip_spaces; auto. }
    reflexivity.
  - rewrite <- app_comm_cons, lstrip_bare_head by (eapply Hhead; eauto).
    rewrite app_comm_cons, rstrip_spaces by assumption.
    destruct (exists_last (l := c :: t)) as (t' & d & E); [discriminate|].
    rewrite E; symmetry; apply rstrip_bare_last.
    eapply Hlast; eauto.
Qed.

Lemma strip_idempotent (s : str) : strip (strip s) = strip s.
Proof.
  symmetry; apply trim_unique.
  destruct (strip_trim s) as (_ & _ & _ & _ & _ & Hb).
  exists [], []; rewrite app_nil_r; simpl; auto.
Qed.

Lemma truthy_nonempty (s : str) : truthy s = true <-> s <> [].
Proof. destruct s; simpl; split; congruence. Qed.

End Strip.

Section Lines.

Lemma join_cons (sep x : str) (y : str) (r : list str) :
  join sep (x :: y :: r) = x ++ sep ++ join sep (y :: r).
Proof. reflexivity. Qed.

Lemma split_nonempty (sep : N) (s : str) : split sep s <> [].
Proof.
  induction s as [|c s IH]; simpl; [discriminate|].
  destruct (c =? sep); [discriminate|].
  destruct (split sep s); discriminate.
Qed.

(** Splitting at line feeds and joining with line feeds gives the text back. *)
Lemma join_split_sep (sep : N) (s : str) : join [sep] (split sep s) = s.
Proof.
  induction s as [|c s IH]; simpl; [reflexivity|].
  destruct (N.eqb_spec c sep) as [->|Hc].
  - pose proof (split_nonempty sep s) as Hne.
    destruct (split sep s) as [|l ls]; [contradiction|].
    rewrite join_cons, IH; reflexivity.
  - destruct (split sep s) as [|l ls] eqn:E.
    + exfalso; eapply split_nonempty; eassumption.
    + destruct ls as [|l' ls].
      * simpl in *; subst; reflexivity.
      * rewrite join_cons in IH; rewrite join_cons.
        simpl; f_equal; exact IH.
Qed.

Lemma join_split (s : str) : join [LF] (split LF s) = s.
Proof. apply join_split_sep. Qed.

Lemma split_no_sep (sep : N) (s : str) :
  Forall (fun l => ~ In sep l) (split sep s).
Proof.
  induction s as [|c s IH]; simpl.
  - constructor; auto.
  - destruct (N.eqb_spec c sep) as [->|Hc].
    + constructor; auto.
    + destruct (split sep s) as [|l ls]; [constructor; auto; simpl; intuition|].
      inversion IH; subst.
      constructor; auto.
      simpl; intuition.
Qed.

Lemma split_length (sep : N) (s : str) :
  length (split sep s) = S (count_occ N.eq_dec s sep).
Proof.
  induction s as [|c s IH]; simpl; [reflexivity|].
  destruct (N.eqb_spec c sep) as [->|Hc].
  - destruct (N.eq_dec sep sep); [|contradiction].
    simpl; congruence.
  - destruct (N.eq_dec c sep); [contradiction|].
    pose proof (split_nonempty sep s) as Hne.
    destruct (split sep s); [contradiction|].
    simpl in *; assumption.
Qed.

Lemma split_line (sep : N) (x : str) :
  ~ In sep x -> split sep x = [x].
Proof.
  induction x as [|c x IH]; simpl; intros H; [reflexivity|].
  destruct (N.eqb_spec c sep) as [->|Hc]; [tauto|].
  rewrite IH by tauto; reflexivity.
Qed.

Lemma split_app_sep (sep : N) (x rest : str) :
  ~ In sep x -> split sep (x ++ sep :: rest) = x :: split sep rest.
Proof.
  induction x as [|c x IH]; simpl; intros H.
  - rewrite N.eqb_refl; reflexivity.
  - destruct (N.eqb_spec c sep) as [->|Hc]; [tauto|].
    rewrite IH by tauto; reflexivity.
Qed.

(** The lines of a text are what [split] returns, and nothing else. *)
Lemma split_lines_of (text : str) : lines_of text (split LF text).
Proof.
  repeat split.
  - apply split_nonempty.
  - apply join_split.
  - apply split_no_sep.
Qed.

Lemma lines_of_unique (text : str) (ls : list str) :
  lines_of text ls -> ls = split LF text.
Proof.
  intros (Hne & <- & Hfree).
  induction ls as [|x ls IH]; [contradiction|].
  inversion Hfree as [|? ? Hx Hls]; subst.
  destruct ls as [|y ls].
  - simpl; symmetry; apply split_line; assumption.
  - rewrite join_cons.
    change (x ++ [LF] ++ join [LF] (y :: ls)) with (x ++ LF :: join [LF] (y :: ls)).
    rewrite split_app_sep by assumption.
    f_equal; apply IH; [discriminate|assumption].
Qed.

End Lines.

(** ** The loop of the Word builder *)

Section Builder.

Variable env : Env.

Lemma stored_add_lines (lines ps : list str) (d : Document) :
  stored env lines ps ->
  add_lines env d lines = inr {| paragraphs := paragraphs d ++ ps |}.
Proof.
  intros H; revert d; induction H as [|line p lines ps Hp _ IH]; intros d.
  - cbn [add_lines]; rewrite app_nil_r; destruct d; reflexivity.
  - cbn [add_lines]; unfold add_paragraph; rewrite Hp, IH.
    cbn [paragraphs]; rewrite <- app_assoc; reflexivity.
Qed.

Lemma add_lines_stored (lines : list str) (d d' : Document) :
  add_lines env d lines = inr d' ->
  exists ps, stored env lines ps /\ paragraphs d' = paragraphs d ++ ps.
Proof.
  revert d; induction lines as [|line lines IH]; intros d; cbn [add_lines].
  - intros E; exists []; split; [constructor|].
    injection E as <-; rewrite app_nil_r; reflexivity.
  - unfold add_paragraph.
    destruct (paragraph_of env line) as [cause|p] eqn:Hp; [discriminate|].
    intros E; destruct (IH _ E) as (ps & Hps & Hd).
    exists (p :: ps); split; [constructor; assumption|].
    rewrite Hd; cbn [paragraphs]; rewrite <- app_assoc; reflexivity.
Qed.

Lemma refused_add_lines (lines : list str) (cause : string) (d : Document) :
  refused env lines cause -> add_lines env d lines = inl cause.
Proof.
  intros (before & line & rest & ps & -> & Hps & Hline).
  revert d; induction Hps as [|l p before ps Hp _ IH]; intros d.
  - cbn [List.app add_lines]; unfold add_paragraph; rewrite Hline; reflexivity.
  - cbn [List.app add_lines]; unfold add_paragraph; rewrite Hp; apply IH.
Qed.

Lemma add_lines_refused (lines : list str) (cause : string) (d : Document) :
  add_lines env d lines = inl cause -> refused env lines cause.
Proof.
  revert d; induction lines as [|line lines IH]; intros d; cbn [add_lines];
    [discriminate|].
  unfold add_paragraph.
  destruct (paragraph_of env line) as [c|p] eqn:Hp.
  - intros E; injection E as <-.
    exists [], line, lines, []; repeat split; [constructor|assumption].
  - intros E; destruct (IH _ E) as (before & l & rest & ps & -> & Hps & Hl).
    exists (line :: before), l, rest, (p :: ps).
    repeat split; [constructor|]; assumption.
Qed.

(** The document built from nothing has the stored paragraphs and no
    other. *)
Lemma built_stored (lines : list str) (d : Document) :
  add_lines env new_document lines = inr d <-> stored env lines (paragraphs d).
Proof.
  split.
  - intros E; destruct (add_lines_stored _ _ _ E) as (ps & Hps & ->); exact Hps.
  - intros H; rewrite (stored_add_lines _ _ new_document H).
    destruct d; reflexivity.
Qed.

Lemma built_refused (lines : list str) (cause : string) :
  add_lines env new_document lines = inl cause <-> refused env lines cause.
Proof. split; [apply add_lines_refused|apply refused_add_lines]. Qed.

Lemma stored_unique (lines ps ps' : list str) :
  stored env lines ps -> stored env lines ps' -> ps = ps'.
Proof.
  intros H; revert ps'; induction H as [|line p lines ps Hp _ IH];
    intros ps' H'; inversion H' as [|? p' ? ps0 Hp' Hps0]; subst;
    [reflexivity|].
  rewrite Hp in Hp'; injection Hp' as <-.
  f_equal; apply IH; assumption.
Qed.

Lemma stored_length (lines ps : list str) :
  stored env lines ps -> length ps = length lines.
Proof. induction 1; simpl; auto. Qed.

Lemma stored_not_refused (lines ps : list str) (cause : string) :
  stored env lines ps -> ~ refused env lines cause.
Proof.
  intros H R.
  apply (refused_add_lines _ _ new_document) in R.
  rewrite (stored_add_lines _ _ new_document H) in R; discriminate R.
Qed.

Lemma verbatim_stored (lines : list str) :
  verbatim env lines -> stored env lines lines.
Proof. induction 1; constructor; assumption. Qed.

Lemma stored_verbatim (lines ps : list str) :
  verbatim env lines -> stored env lines ps -> ps = lines.
Proof. intros V H; eauto using stored_unique, verbatim_stored. Qed.

(** An export that holds [text] reads as [text] where the library stores
    the lines of [text] as they are. *)
Lemma holds_payload_text (d : payload) (text : str) :
  holds env d text ->
  (kind_of d = as_docx -> verbatim env (split LF text)) ->
  payload_text d = Some text.
Proof.
  destruct d as [b|document]; cbn [holds payload_text kind_of]; intros H V;
    [exact H|].
  rewrite (stored_verbatim _ _ (V eq_refl) H), join_split; reflexivity.
Qed.

End Builder.

Section Keeping.


Lemma kept_unique (ps ks : list str) : kept ps ks -> ks = filter truthy ps.
Proof.
  induction 1 as [|ps ks _ IH|p ps ks Hp _ IH]; simpl; auto.
  destruct p; [contradiction|]; simpl; f_equal; exact IH.
Qed.

Lemma page_loop_acc (pages : list (option str)) (texts : list str) :
  App3.page_loop pages texts
  = texts ++ filter truthy (map App1.or_empty pages).
Proof.
  revert texts; induction pages as [|p pages IH]; intros texts; simpl.
  - rewrite app_nil_r; reflexivity.
  - destruct p as [txt|]; simpl.
    + destruct txt as [|c txt]; simpl.
      * apply IH.
      * rewrite IH, <- app_assoc; reflexivity.
    + apply IH.
Qed.

End Keeping.

Section Suffixes.

Lemma str_eqb_eq (a b : str) : str_eqb a b = true <-> a = b.
Proof.
  unfold str_eqb; destruct (list_eq_dec N.eq_dec a b); split; congruence.
Qed.

(** [endswith] holds exactly of the strings that end with the suffix. *)
Lemma endswith_suffix (s suffix : str) :
  endswith s suffix = true <-> suffix_of s suffix.
Proof.
  unfold endswith, suffix_of; split.
  - destruct (Nat.leb_spec (length suffix) (length s)); [|discriminate].
    rewrite str_eqb_eq; intros E.
    exists (firstn (length s - length suffix) s).
    rewrite <- E at 2; symmetry; apply firstn_skipn.
  - intros (p & ->).
    rewrite length_app.
    destruct (Nat.leb_spec (length suffix) (length p + length suffix)); [|lia].
    apply str_eqb_eq.
    replace (length p + length suffix - length suffix)%nat with (length p) by lia.
    rewrite skipn_app, skipn_all, Nat.sub_diag; reflexivity.
Qed.

Lemma endswith_false (s suffix : str) :
  endswith s suffix = false <-> ~ suffix_of s suffix.
Proof.
  rewrite <- endswith_suffix; destruct (endswith s suffix); split; congruence.
Qed.

Lemma lower_app (a b : str) : lower (a ++ b) = lower a ++ lower b.
Proof. apply map_app. Qed.

Lemma lower_cp_idempotent (c : N) : lower_cp (lower_cp c) = lower_cp c.
Proof.
  unfold lower_cp.
  destruct ((0x41 <=? c) && (c <=? 0x5A)) eqn:E; [|rewrite E; reflexivity].
  apply andb_true_iff in E; destruct E as [E1 E2].
  apply N.leb_le in E1, E2.
  destruct (N.leb_spec (c + 0x20) 0x5A); [lia|].
  rewrite andb_false_r; reflexivity.
Qed.

Lemma lower_idempotent (s : str) : lower (lower s) = lower s.
Proof.
  unfold lower; rewrite map_map.
  apply map_ext; intros; apply lower_cp_idempotent.
Qed.

Lemma suffix_last (p q : str) (a b : N) :
  p ++ [a] = q ++ [b] -> a = b.
Proof.
  intros H; apply (f_equal (@rev N)) in H.
  rewrite !rev_app_distr in H; simpl in H; congruence.
Qed.

(** A name cannot end in both [.docx] and [.pdf]. *)
Lemma docx_not_pdf (s : str) :
  endswith s (lit ".docx") = true -> endswith s (lit ".pdf") = false.
Proof.
  rewrite endswith_suffix, endswith_false.
  intros (p & Hp) (q & Hq); subst s.
  change (lit ".docx") with (lit ".doc" ++ [120]) in Hq.
  change (lit ".pdf") with (lit ".pd" ++ [102]) in Hq.
  rewrite !app_assoc in Hq.
  apply suffix_last in Hq; discriminate.
Qed.

End Suffixes.

Section Utf8.

Local Ltac Zify.zify_post_hook ::= Z.to_euclidean_division_equations.

Lemma land_shl_small (a x k : N) : x < 2 ^ k -> N.land (a * 2 ^ k) x = 0.
Proof.
  intros Hx; apply N.bits_inj_0; intros n.
  rewrite N.land_spec.
  destruct (N.lt_ge_cases n k) as [Hn|Hn].
  - rewrite N.mul_pow2_bits_low by assumption; reflexivity.
  - rewrite <- (N.mod_small x (2 ^ k)) by assumption.
    rewrite N.mod_pow2_bits_high by assumption.
    apply andb_false_r.
Qed.

(** Below bit [k] and from bit [k] on, [lor] adds. *)
Lemma lor_shl_small (a x k : N) :
  x < 2 ^ k -> N.lor (a * 2 ^ k) x = a * 2 ^ k + x.
Proof.
  intros Hx.
  rewrite <- N.lxor_lor, <- N.add_nocarry_lxor;
    auto using land_shl_small.
Qed.

Lemma shiftr6 (c : N) : N.shiftr c 6 = c / 64.
Proof. apply N.shiftr_div_pow2. Qed.

Lemma shiftr12 (c : N) : N.shiftr c 12 = c / 4096.
Proof. apply N.shiftr_div_pow2. Qed.

Lemma shiftr18 (c : N) : N.shiftr c 18 = c / 262144.
Proof. apply N.shiftr_div_pow2. Qed.

Lemma low6 (c : N) : N.land c 0x3F = c mod 64.
Proof. apply (N.land_ones c 6). Qed.

Lemma low5 (c : N) : N.land c 0x1F = c mod 32.
Proof. apply (N.land_ones c 5). Qed.

Lemma low4 (c : N) : N.land c 0x0F = c mod 16.
Proof. apply (N.land_ones c 4). Qed.

Lemma low3 (c : N) : N.land c 0x07 = c mod 8.
Proof. apply (N.land_ones c 3). Qed.

Lemma mark_cont (x : N) : x < 64 -> N.lor 0x80 x = 128 + x.
Proof. apply (lor_shl_small 2 x 6). Qed.

Lemma mark2 (x : N) : x < 32 -> N.lor 0xC0 x = 192 + x.
Proof. apply (lor_shl_small 6 x 5). Qed.

Lemma mark3 (x : N) : x < 16 -> N.lor 0xE0 x = 224 + x.
Proof. apply (lor_shl_small 14 x 4). Qed.

Lemma mark4 (x : N) : x < 8 -> N.lor 0xF0 x = 240 + x.
Proof. apply (lor_shl_small 30 x 3). Qed.

Lemma glue6 (a x : N) : x < 64 -> N.lor (N.shiftl a 6) x = a * 64 + x.
Proof. rewrite N.shiftl_mul_pow2; apply (lor_shl_small a x 6). Qed.

Lemma glue12 (a x : N) : x < 4096 -> N.lor (N.shiftl a 12) x = a * 4096 + x.
Proof. rewrite N.shiftl_mul_pow2; apply (lor_shl_small a x 12). Qed.

Lemma glue18 (a x : N) :
  x < 262144 -> N.lor (N.shiftl a 18) x = a * 262144 + x.
Proof. rewrite N.shiftl_mul_pow2; apply (lor_shl_small a x 18). Qed.

(** The encoder in arithmetic. *)
Lemma encode_cp_arith (c : N) :
  encode_cp c =
    if c <? 0x80 then Some [c]
    else if c <? 0x800 then Some [192 + c / 64; 128 + c mod 64]
    else if is_surrogate c then None
    else if c <? 0x10000 then
      Some [224 + c / 4096; 128 + (c / 64) mod 64; 128 + c mod 64]
    else if c <? 0x110000 then
      Some [240 + c / 262144; 128 + (c / 4096) mod 64;
            128 + (c / 64) mod 64; 128 + c mod 64]
    else None.
Proof.
  unfold encode_cp.
  rewrite shiftr6, shiftr12, shiftr18, !low6.
  rewrite !mark_cont by (apply N.mod_lt; discriminate).
  destruct (N.ltb_spec c 0x80); [reflexivity|].
  destruct (N.ltb_spec c 0x800); [rewrite mark2 by lia; reflexivity|].
  destruct (is_surrogate c); [reflexivity|].
  destruct (N.ltb_spec c 0x10000); [rewrite mark3 by lia; reflexivity|].
  destruct (N.ltb_spec c 0x110000); [rewrite mark4 by lia; reflexivity|].
  reflexivity.
Qed.

Lemma Some_eq {A} (x y : A) : Some x = Some y -> y = x.
Proof. congruence. Qed.

Ltac decide_order :=
  repeat match goal with
    | |- context [?a <? ?b] => destruct (N.ltb_spec a b); try lia
    | |- context [?a <=? ?b] => destruct (N.leb_spec a b); try lia
    | |- context [?a =? ?b] => destruct (N.eqb_spec a b); try lia
    end.

Lemma decode_utf8_cons (b0 : N) (t0 : bytes) :
  decode_utf8 (b0 :: t0) =
    if b0 <? 0x80 then option_map (cons b0) (decode_utf8 t0)
    else if (0xC2 <=? b0) && (b0 <=? 0xDF) then
      match t0 with
      | b1 :: t1 =>
          if is_cont b1
          then option_map
                 (cons (N.lor (N.shiftl (N.land b0 0x1F) 6) (cont_bits b1)))
                 (decode_utf8 t1)
          else None
      | _ => None
      end
    else if (0xE0 <=? b0) && (b0 <=? 0xEF) then
      match t0 with
      | b1 :: b2 :: t2 =>
          if is_cont b1 && is_cont b2
             && (negb (b0 =? 0xE0) || (0xA0 <=? b1))
             && (negb (b0 =? 0xED) || (b1 <=? 0x9F))
          then option_map
                 (cons (N.lor (N.shiftl (N.land b0 0x0F) 12)
                          (N.lor (N.shiftl (cont_bits b1) 6) (cont_bits b2))))
                 (decode_utf8 t2)
          else None
      | _ => None
      end
    else if (0xF0 <=? b0) && (b0 <=? 0xF4) then
      match t0 with
      | b1 :: b2 :: b3 :: t3 =>
          if is_cont b1 && is_cont b2 && is_cont b3
             && (negb (b0 =? 0xF0) || (0x90 <=? b1))
             && (negb (b0 =? 0xF4) || (b1 <=? 0x8F))
          then option_map
                 (cons (N.lor (N.shiftl (N.land b0 0x07) 18)
                          (N.lor (N.shiftl (cont_bits b1) 12)
                             (N.lor (N.shiftl (cont_bits b2) 6) (cont_bits b3)))))
                 (decode_utf8 t3)
          else None
      | _ => None
      end
    else None.
Proof. reflexivity. Qed.

Lemma cont_bits_low (b : N) : cont_bits b = b mod 64.
Proof. apply low6. Qed.

Lemma cont_bits_lt (b : N) : cont_bits b < 64.
Proof. rewrite cont_bits_low; apply N.mod_lt; discriminate. Qed.

Lemma decode_utf8_ascii (b0 : N) (rest : bytes) :
  b0 < 0x80 ->
  decode_utf8 (b0 :: rest) = option_map (cons b0) (decode_utf8 rest).
Proof.
  intros H; rewrite decode_utf8_cons.
  destruct (N.ltb_spec b0 0x80); [reflexivity|lia].
Qed.

Lemma decode_utf8_two (b0 b1 : N) (rest : bytes) :
  0xC2 <= b0 <= 0xDF -> 0x80 <= b1 <= 0xBF ->
  decode_utf8 (b0 :: b1 :: rest)
  = option_map (cons (b0 mod 32 * 64 + b1 mod 64)) (decode_utf8 rest).
Proof.
  intros H0 H1; rewrite decode_utf8_cons; unfold is_cont.
  destruct (N.ltb_spec b0 0x80); [lia|].
  destruct (N.leb_spec 0xC2 b0); [|lia].
  destruct (N.leb_spec b0 0xDF); [|lia].
  destruct (N.leb_spec 0x80 b1); [|lia].
  destruct (N.leb_spec b1 0xBF); [|lia].
  cbn [andb].
  rewrite glue6, low5, cont_bits_low by apply cont_bits_lt; reflexivity.
Qed.

Lemma decode_utf8_three (b0 b1 b2 : N) (rest : bytes) :
  0xE0 <= b0 <= 0xEF -> 0x80 <= b1 <= 0xBF -> 0x80 <= b2 <= 0xBF ->
  (b0 = 0xE0 -> 0xA0 <= b1) -> (b0 = 0xED -> b1 <= 0x9F) ->
  decode_utf8 (b0 :: b1 :: b2 :: rest)
  = option_map (cons (b0 mod 16 * 4096 + (b1 mod 64 * 64 + b2 mod 64)))
      (decode_utf8 rest).
Proof.
  intros H0 H1 H2 Hlow Hhigh; rewrite decode_utf8_cons; unfold is_cont.
  destruct (N.ltb_spec b0 0x80); [lia|].
  destruct (N.leb_spec 0xC2 b0); [|lia].
  destruct (N.leb_spec b0 0xDF); [lia|].
  destruct (N.leb_spec 0xE0 b0); [|lia].
  destruct (N.leb_spec b0 0xEF); [|lia].
  destruct (N.leb_spec 0x80 b1); [|lia].
  destruct (N.leb_spec b1 0xBF); [|lia].
  destruct (N.leb_spec 0x80 b2); [|lia].
  destruct (N.leb_spec b2 0xBF); [|lia].
  assert (negb (b0 =? 0xE0) || (0xA0 <=? b1) = true) as ->.
  { destruct (N.eqb_spec b0 0xE0); [|reflexivity].
    apply N.leb_le; auto. }
  assert (negb (b0 =? 0xED) || (b1 <=? 0x9F) = true) as ->.
  { destruct (N.eqb_spec b0 0xED); [|reflexivity].
    apply N.leb_le; auto. }
  cbn [andb].
  rewrite (glue6 (cont_bits b1)) by apply cont_bits_lt.
  rewrite glue12, low4, !cont_bits_low; [reflexivity|].
  pose proof (cont_bits_lt b1); pose proof (cont_bits_lt b2); lia.
Qed.

Lemma decode_utf8_four (b0 b1 b2 b3 : N) (rest : bytes) :
  0xF0 <= b0 <= 0xF4 ->
  0x80 <= b1 <= 0xBF -> 0x80 <= b2 <= 0xBF -> 0x80 <= b3 <= 0xBF ->
  (b0 = 0xF0 -> 0x90 <= b1) -> (b0 = 0xF4 -> b1 <= 0x8F) ->
  decode_utf8 (b0 :: b1 :: b2 :: b3 :: rest)
  = option_map
      (cons (b0 mod 8 * 262144
             + (b1 mod 64 * 4096 + (b2 mod 64 * 64 + b3 mod 64))))
      (decode_utf8 rest).
Proof.
  intros H0 H1 H2 H3 Hlow Hhigh; rewrite decode_utf8_cons; unfold is_cont.
  destruct (N.ltb_spec b0 0x80); [lia|].
  destruct (N.leb_spec 0xC2 b0); [|lia].
  destruct (N.leb_spec b0 0xDF); [lia|].
  destruct (N.leb_spec 0xE0 b0); [|lia].
  destruct (N.leb_spec b0 0xEF); [lia|].
  destruct (N.leb_spec 0xF0 b0); [|lia].
  destruct (N.leb_spec b0 0xF4); [|lia].
  destruct (N.leb_spec 0x80 b1); [|lia].
  destruct (N.leb_spec b1 0xBF); [|lia].
  destruct (N.leb_spec 0x80 b2); [|lia].
  destruct (N.leb_spec b2 0xBF); [|lia].
  destruct (N.leb_spec 0x80 b3); [|lia].
  destruct (N.leb_spec b3 0xBF); [|lia].
  assert (negb (b0 =? 0xF0) || (0x90 <=? b1) = true) as ->.
  { destruct (N.eqb_spec b0 0xF0); [|reflexivity].
    apply N.leb_le; auto. }
  assert (negb (b0 =? 0xF4) || (b1 <=? 0x8F) = true) as ->.
  { destruct (N.eqb_spec b0 0xF4); [|reflexivity].
    apply N.leb_le; auto. }
  cbn [andb].
  pose proof (cont_bits_lt b1); pose proof (cont_bits_lt b2);
    pose proof (cont_bits_lt b3).
  rewrite (glue6 (cont_bits b2)) by assumption.
  rewrite (glue12 (cont_bits b1)) by lia.
  rewrite glue18, low3, !cont_bits_low; [reflexivity|lia].
Qed.

(** Decoding reads back one encoded scalar value and goes on with the rest. *)
Lemma decode_encoded_cp (c : N) (bs rest : bytes) :
  scalar c -> encode_cp c = Some bs ->
  decode_utf8 (bs ++ rest) = option_map (cons c) (decode_utf8 rest).
Proof.
  intros [Hc Hs]; rewrite encode_cp_arith, Hs.
  unfold is_surrogate in Hs.
  assert (c < 0xD800 \/ 0xDFFF < c) as Hs'.
  { revert Hs; decide_order; discriminate. }
  clear Hs.
  destruct (N.ltb_spec c 0x80).
  { intros E; apply Some_eq in E; subst bs.
    apply decode_utf8_ascii; assumption. }
  destruct (N.ltb_spec c 0x800).
  { intros E; apply Some_eq in E; subst bs; cbn [List.app].
    rewrite decode_utf8_two by lia.
    do 2 f_equal; lia. }
  destruct (N.ltb_spec c 0x10000).
  { intros E; apply Some_eq in E; subst bs; cbn [List.app].
    rewrite decode_utf8_three by lia.
    do 2 f_equal; lia. }
  destruct (N.ltb_spec c 0x110000); [|lia].
  intros E; apply Some_eq in E; subst bs; cbn [List.app].
  rewrite decode_utf8_four by lia.
  do 2 f_equal; lia.
Qed.

Lemma encode_cp_scalar (c : N) : scalar c -> exists bs, encode_cp c = Some bs.
Proof.
  intros [Hc Hs]; unfold encode_cp; rewrite Hs.
  destruct (c <? 0x80); [eauto|].
  destruct (c <? 0x800); [eauto|].
  destruct (c <? 0x10000); [eauto|].
  destruct (N.ltb_spec c 0x110000); [eauto|lia].
Qed.

(** A string of scalar values has an encoding, and the encoding decodes to
    the string. *)
Lemma decode_encode_utf8 (s : str) :
  Forall scalar s ->
  exists b, encode_utf8 s = Some b /\ decode_utf8 b = Some s.
Proof.
  induction 1 as [|c s Hc _ (b & Hb & Hd)]; simpl.
  - exists []; auto.
  - destruct (encode_cp_scalar c Hc) as (bs & Hbs).
    rewrite Hbs, Hb; exists (bs ++ b); split; [reflexivity|].
    rewrite (decode_encoded_cp c bs b Hc Hbs), Hd; reflexivity.
Qed.

Lemma encode_cp_some (c : N) (bs : bytes) :
  encode_cp c = Some bs -> scalar c.
Proof.
  unfold scalar, encode_cp; intros E.
  destruct (N.ltb_spec c 0x80).
  { split; [lia|]; unfold is_surrogate; decide_order; reflexivity. }
  destruct (N.ltb_spec c 0x800).
  { split; [lia|]; unfold is_surrogate; decide_order; reflexivity. }
  destruct (is_surrogate c); [discriminate|].
  destruct (N.ltb_spec c 0x10000); [split; [lia|reflexivity]|].
  destruct (N.ltb_spec c 0x110000); [auto|discriminate].
Qed.

Lemma encode_utf8_some (s : str) (b : bytes) :
  encode_utf8 s = Some b -> Forall scalar s.
Proof.
  revert b; induction s as [|c s IH]; intros b; simpl; [constructor|].
  destruct (encode_cp c) as [bs|] eqn:Ec; [|discriminate].
  destruct (encode_utf8 s) as [b'|]; [|discriminate].
  intros _; constructor; eauto using encode_cp_some.
Qed.

(** Whatever the encoder returns decodes to the string it was given. *)
Lemma decode_of_encode (s : str) (b : bytes) :
  encode_utf8 s = Some b -> decode_utf8 b = Some s.
Proof.
  intros E.
  destruct (decode_encode_utf8 s (encode_utf8_some s b E)) as (b' & Hb & Hd).
  congruence.
Qed.

(** Only a surrogate, or a value no [str] holds, stops the encoder. *)
Lemma encode_utf8_none (s : str) :
  encode_utf8 s = None <-> ~ Forall scalar s.
Proof.
  split.
  - intros E H; destruct (decode_encode_utf8 s H) as (b & Hb & _); congruence.
  - intros H; destruct (encode_utf8 s) as [b|] eqn:E; [|reflexivity].
    exfalso; eauto using encode_utf8_some.
Qed.

End Utf8.

Section Splitext.

Lemma rfind_from_absent (i last : Z) (s : str) (c : N) :
  ~ In c s -> rfind_from i last s c = last.
Proof.
  revert i last; induction s as [|x s IH]; intros i last H; simpl; auto.
  destruct (N.eqb_spec x c) as [->|Hx]; [simpl in H; tauto|].
  apply IH; simpl in H; tauto.
Qed.

Lemma rfind_from_last (i last : Z) (b x : str) (c : N) :
  ~ In c x ->
  rfind_from i last (b ++ c :: x) c = (i + Z.of_nat (length b))%Z.
Proof.
  intros Hx; revert i last; induction b as [|y b IH]; intros i last.
  - simpl; rewrite N.eqb_refl, rfind_from_absent by assumption; lia.
  - cbn [List.app rfind_from length]; rewrite IH; lia.
Qed.

Lemma has_non_dot_spec (l : str) :
  has_non_dot l = true <-> exists c, In c l /\ c <> 0x2E.
Proof.
  induction l as [|c l IH]; simpl.
  - split; [discriminate|intros (c & [] & _)].
  - destruct (N.eqb_spec c 0x2E) as [->|Hc].
    + rewrite IH; split; intros (d & Hd & Hne); exists d;
        intuition congruence.
    + split; auto; intros _; exists c; auto.
Qed.


(** For a plain file name (no ["/"]) whose part before the last dot has a
    character other than a dot, the stem is that part and the extension is
    the last dot with what follows it. *)
Lemma splitext_plain (b x : str) :
  ~ In 0x2F (b ++ 0x2E :: x) -> ~ In 0x2E x -> has_non_dot b = true ->
  splitext (b ++ 0x2E :: x) = (b, 0x2E :: x).
Proof.
  intros Hsep Hdot Hb; unfold splitext, rfind.
  rewrite (rfind_from_absent 0 (-1) _ 0x2F) by assumption.
  rewrite rfind_from_last by assumption.
  destruct (Z.ltb_spec (-1) (0 + Z.of_nat (length b))); [|lia].
  unfold upto, from.
  replace (Z.to_nat (-1 + 1)) with 0%nat by lia.
  replace (Z.to_nat (0 + Z.of_nat (length b) - (-1 + 1))) with (length b) by lia.
  replace (Z.to_nat (0 + Z.of_nat (length b))) with (length b) by lia.
  cbn [skipn].
  rewrite firstn_app, firstn_all, Nat.sub_diag; cbn [firstn].
  rewrite app_nil_r, Hb.
  rewrite skipn_app, skipn_all, Nat.sub_diag; reflexivity.
Qed.

(** A name made of dots and a suffix keeps the suffix: [".pdf"] has the stem
    [".pdf"]. *)
Lemma splitext_leading_dots (b x : str) :
  ~ In 0x2F (b ++ 0x2E :: x) -> ~ In 0x2E x -> has_non_dot b = false ->
  splitext (b ++ 0x2E :: x) = (b ++ 0x2E :: x, []).
Proof.
  intros Hsep Hdot Hb; unfold splitext, rfind.
  rewrite (rfind_from_absent 0 (-1) _ 0x2F) by assumption.
  rewrite rfind_from_last by assumption.
  destruct (Z.ltb_spec (-1) (0 + Z.of_nat (length b))); [|lia].
  unfold upto, from.
  replace (Z.to_nat (-1 + 1)) with 0%nat by lia.
  replace (Z.to_nat (0 + Z.of_nat (length b) - (-1 + 1))) with (length b) by lia.
  cbn [skipn].
  rewrite firstn_app, firstn_all, Nat.sub_diag; cbn [firstn].
  rewrite app_nil_r, Hb; reflexivity.
Qed.




End Splitext.

(** ** Texts a widget can show *)

Section Shown.

Lemma scalar_firstn (n : nat) (t : str) :
  Forall scalar t -> Forall scalar (firstn n t).
Proof.
  intros H; revert n; induction H as [|c t Hc _ IH]; intros [|n];
    cbn [firstn]; constructor; auto.
Qed.

Lemma scalar_mark : Forall scalar (blank_line ++ lit "... (truncated)").
Proof. repeat constructor; vm_compute; reflexivity. Qed.

Lemma scalar_first2000 (t : str) :
  Forall scalar t -> Forall scalar (first2000 t).
Proof.
  intros H; unfold first2000; apply Forall_app; split.
  - apply scalar_firstn; assumption.
  - destruct (_ <? _)%nat; [apply scalar_mark|constructor].
Qed.

Lemma scalar_splitlines_upto (n : nat) (s cur : str) :
  (length s <= n)%nat -> Forall scalar s -> Forall scalar cur ->
  Forall (Forall scalar) (splitlines_from cur s).
Proof.
  revert s cur; induction n as [|n IH]; intros s cur Hn Hs Hcur;
    destruct s as [|c s]; cbn [splitlines_from]; cbn [length] in Hn.
  - destruct cur; repeat constructor; apply Forall_rev; assumption.
  - lia.
  - destruct cur; repeat constructor; apply Forall_rev; assumption.
  - assert (Forall scalar (rev cur)) as Hrev by (apply Forall_rev; assumption).
    inversion Hs as [|? ? Hc Hs']; subst.
    destruct (c =? 0x0D).
    + destruct s as [|d s']; [repeat constructor; assumption|].
      inversion Hs' as [|? ? Hd Hs'']; subst; cbn [length] in Hn.
      destruct (d =? 0x0A); constructor; auto.
      * apply IH; [lia|assumption|constructor].
      * apply IH; [cbn [length]; lia|assumption|constructor].
    + destruct (is_linebreak c); [constructor; auto|].
      * apply IH; [lia|assumption|constructor].
      * apply IH; [lia|assumption|constructor; assumption].
Qed.

Lemma scalar_splitlines_from (s cur : str) :
  Forall scalar s -> Forall scalar cur ->
  Forall (Forall scalar) (splitlines_from cur s).
Proof. apply (scalar_splitlines_upto (length s)); lia. Qed.

Lemma scalar_join (ls : list str) :
  Forall (Forall scalar) ls -> Forall scalar (join [LF] ls).
Proof.
  induction 1 as [|l ls Hl Hls IH]; [constructor|].
  destruct ls as [|l' ls]; [exact Hl|].
  rewrite join_cons; apply Forall_app; split; [exact Hl|].
  apply Forall_app; split; [|exact IH].
  repeat constructor; vm_compute; reflexivity.
Qed.

Lemma scalar_first30lines (t : str) :
  Forall scalar t -> Forall scalar (first30lines t).
Proof.
  intros H; unfold first30lines; apply Forall_app; split.
  - apply scalar_join.
    assert (Forall (Forall scalar) (splitlines t)) as Hl
        by (apply scalar_splitlines_from; [assumption|constructor]).
    revert Hl; generalize (splitlines t); intros ls Hl.
    generalize 30%nat; induction Hl as [|l ls Hl _ IH]; intros [|n];
      cbn [firstn]; constructor; auto.
  - destruct (_ <? _)%nat; [apply scalar_mark|constructor].
Qed.

(** A text that can be encoded can be shown, cut or not. *)
Lemma shown_first2000 (t : str) (b : bytes) :
  encode_utf8 t = Some b -> encode_utf8 (first2000 t) <> None.
Proof.
  intros E; rewrite encode_utf8_none; intros H; apply H.
  apply scalar_first2000; eauto using encode_utf8_some.
Qed.

Lemma shown_first30lines (t : str) (b : bytes) :
  encode_utf8 t = Some b -> encode_utf8 (first30lines t) <> None.
Proof.
  intros E; rewrite encode_utf8_none; intros H; apply H.
  apply scalar_first30lines; eauto using encode_utf8_some.
Qed.

End Shown.

(** ** The scripts *)

Ltac model :=
  cbv [run App1.script App2.script App3.script
       App1.extract_pdf_text App1.extract_docx_text
       App2.extract_pdf_text App2.extract_docx_text
       App3.extract_text_from_pdf_bytes App3.extract_text_from_docx_bytes
       App3.extracting App3.get_file_meta
       App1.create_docx_bytes_from_text App2.create_docx_bytes_from_text
       App3.create_docx_bytes_from_text
       bind catch read emit ret raise when trace encode preview is_some
       App1.allowed_filetype App2.allowed_filetype App3.allowed_filetype
       endswith_any existsb fst snd negb andb orb] in *;
  cbn [List.app downloads errors previews parser_calls flat_map] in *.

(** Case analysis on what the libraries answer for the upload [u]. *)
Ltac libraries env u :=
  let reader := fresh "reader" in
  let opener := fresh "opener" in
  destruct (PdfReader env) as [reader|] eqn:?;
  [destruct (reader (content u)) as [?cause|?pages] eqn:?|];
  (destruct (docx env) as [opener|] eqn:?;
   [destruct (opener (content u)) as [?cause|?paras] eqn:?|]).

Ltac encoded :=
  repeat match goal with
    | |- context [encode_utf8 ?x] => destruct (encode_utf8 x) eqn:?; model
    end.

(** Reading the members of an explicit list of downloads. *)
Ltac members :=
  let Hin := fresh "Hin" in
  intros Hin; cbn [In] in Hin;
  repeat (destruct Hin as [Hin|Hin]; [inversion Hin; subst; clear Hin|]);
  try contradiction.

(** Case analysis on everything a run branches on, innermost test first. *)
Ltac explode :=
  repeat (model; try discriminate;
          match goal with
          | |- context [match ?x with _ => _ end] =>
              lazymatch x with
              | context [match _ with _ => _ end] => fail
              | _ => destruct x eqn:?
              end
          end).

(** A text that was not shown or not encoded is no text of scalar values. *)
Ltac unshown :=
  exfalso;
  match goal with
  | E : encode_utf8 ?x = None |- _ =>
      apply (proj1 (encode_utf8_none x) E);
      solve [ auto using scalar_first2000, scalar_first30lines ]
  | E : encode_utf8 (first2000 ?x) = None, E' : encode_utf8 ?x = Some _ |- _ =>
      exact (shown_first2000 x _ E' E)
  | E : encode_utf8 (first30lines ?x) = None, E' : encode_utf8 ?x = Some _
    |- _ =>
      exact (shown_first30lines x _ E' E)
  end.

(** What the builder did on the lines at hand, against what the library is
    said to do with them. *)
Ltac built :=
  match goal with
  | Hps : stored ?env ?l ?ps, E : add_lines ?env new_document ?l = _ |- _ =>
      rewrite (proj2 (built_stored env l {| paragraphs := ps |}) Hps) in E;
      first [ discriminate E | injection E as <- ]
  | Hr : refused ?env ?l ?c, E : add_lines ?env new_document ?l = _ |- _ =>
      rewrite (proj2 (built_refused env l c) Hr) in E;
      first [ discriminate E | injection E as <- ]
  end.

(** The export at hand holds the text it was made of. *)
Ltac held :=
  cbn [holds];
  first [ apply built_stored; assumption
        | solve [eauto using decode_of_encode] ].

(** What a run offers, read off its explicit trace: the text of each
    download, the preview, the Word file and the text file asked for, the
    errors, the end of the run when the library refuses the text. *)
Ltac offered :=
  split; [intros ? ? ?; members; held|];
  split; [intros Hshown; first [reflexivity | unshown]|];
  split;
  [ intros Hwd Hdx Hshown Htxt ps Hps; unfold wants_docx, wants_txt in *;
    first [ congruence
          | unshown
          | built; solve [eexists; cbn [In]; eauto 6] ]|];
  split;
  [ intros Htxt Hs; unfold wants_txt in *;
    first [ congruence
          | solve [do 2 eexists; cbn [In]; eauto 6]
          | unshown ]|];
  split; [cbn [In]; intuition discriminate|];
  intros Hwd Hdx Hshown Htxt cause Href; unfold wants_docx, wants_txt in *;
  first [ congruence
        | unshown
        | built; first [ reflexivity | split; [cbn [In]; auto 6|reflexivity] ] ].

Section Composing.

Variables (a : app_id) (env : Env) (w : Widgets) (u : UploadedFile).
Variable extracted : str.
Hypothesis Hcomposing : composing a env w u extracted.

(** C1.  When the run gets to Append with a text box that is not blank, the
    result text is the extracted text, a blank line and the trimmed text of
    the box.  Every download the run offers holds exactly that text; App3
    previews it; a Word file and a text file of it are offered where the run
    is asked for them, python-docx being there and storing its lines, the
    text being one the run can show and encode; no empty-input error is
    reported.  Where python-docx refuses a line of it, no Word file is
    offered: App3 reports the failure, App1 and App2 end with it. *)
Theorem append_result_text (t : str) :
  operation w = Append -> trim_of (user_text w) t -> t <> [] ->
  let result := extracted ++ blank_line ++ t in
  (forall d n m, In (d, n, m) (downloads (trace (run a env w))) ->
                 holds env d result)
  /\ ((a = app3 -> Forall scalar (first2000 result)) ->
      previews (trace (run a env w))
      = match a with app3 => [first2000 result] | _ => [] end)
  /\ (wants_docx a w = true -> docx env <> None ->
      (a = app3 -> Forall scalar (first2000 result)) ->
      (wants_txt a w = true -> Forall scalar result) ->
      forall ps, stored env (split LF result) ps ->
      exists n, In (docx_bytes {| paragraphs := ps |}, n, docx_mime)
                  (downloads (trace (run a env w))))
  /\ (wants_txt a w = true -> Forall scalar result ->
      exists b n, In (txt_bytes b, n, "text/plain"%string)
                    (downloads (trace (run a env w))))
  /\ ~ In (EmptyInputError Append) (errors (trace (run a env w)))
  /\ (wants_docx a w = true -> docx env <> None ->
      (a = app3 -> Forall scalar (first2000 result)) ->
      (wants_txt a w = true -> Forall scalar result) ->
      forall cause, refused env (split LF result) cause ->
      match a with
      | app3 => In (BuilderFailed (LibraryError cause))
                  (errors (trace (run a env w)))
                /\ snd (run a env w) = inr tt
      | _ => snd (run a env w) = inl (LibraryError cause)
      end).
Proof.
  intros Hop Ht Hne result; subst result.
  apply trim_unique in Ht; subst t.
  apply truthy_nonempty in Hne.
  destruct Hcomposing as (Hu & Hp & Ha).
  destruct a; model.
  - destruct Ha as (Hx & He).
    rewrite Hu, Hp, Hop, Hne, Hx, (docx_not_pdf _ Hx).
    revert He; explode; model; intros He; try discriminate He.
    all: injection He as <-.
    all: offered.
  - destruct Ha as (Hx & He).
    rewrite Hu, Hp, Hop, Hne, Hx, (docx_not_pdf _ Hx).
    revert He; explode; model; intros He; try discriminate He.
    all: injection He as <-.
    all: offered.
  - destruct Ha as (Hsize & Hallowed & He).
    apply N.ltb_ge in Hsize.
    rewrite Hu, Hp, Hop, Hne, Hsize, Hallowed.
    revert He; explode; model; intros He; try discriminate He.
    all: injection He as <-.
    all: offered.
Qed.

(** C3, as the scripts have it.  When the run gets to Write (App3 on any
    supported upload, App1 and App2 on a Word upload): with a blank text box
    it reports the empty-input error and offers nothing; otherwise the result
    text is the trimmed text of the box, whatever was extracted from the
    upload.  Every download holds exactly that text; App3 previews it; a Word
    file and a text file of it are offered where the run is asked for them,
    python-docx being there and storing its lines, the text being one the
    run can show and encode.  Where python-docx refuses a line of it, no
    Word file is offered: App3 reports the failure, App1 and App2 end with
    it. *)
Theorem write_result_text (t : str) :
  operation w = Write -> trim_of (user_text w) t ->
  (t = [] ->
   In (EmptyInputError Write) (errors (trace (run a env w)))
   /\ downloads (trace (run a env w)) = []
   /\ previews (trace (run a env w)) = [])
  /\ (t <> [] ->
      (forall d n m, In (d, n, m) (downloads (trace (run a env w))) ->
                     holds env d t)
      /\ ((a = app3 -> Forall scalar (first2000 t)) ->
          previews (trace (run a env w))
          = match a with app3 => [first2000 t] | _ => [] end)
      /\ (wants_docx a w = true -> docx env <> None ->
          (a = app3 -> Forall scalar (first2000 t)) ->
          (wants_txt a w = true -> Forall scalar t) ->
          forall ps, stored env (split LF t) ps ->
          exists n, In (docx_bytes {| paragraphs := ps |}, n, docx_mime)
                      (downloads (trace (run a env w))))
      /\ (wants_txt a w = true -> Forall scalar t ->
          exists b n, In (txt_bytes b, n, "text/plain"%string)
                        (downloads (trace (run a env w))))
      /\ ~ In (EmptyInputError Write) (errors (trace (run a env w)))
      /\ (wants_docx a w = true -> docx env <> None ->
          (a = app3 -> Forall scalar (first2000 t)) ->
          (wants_txt a w = true -> Forall scalar t) ->
          forall cause, refused env (split LF t) cause ->
          match a with
          | app3 => In (BuilderFailed (LibraryError cause))
                      (errors (trace (run a env w)))
                    /\ snd (run a env w) = inr tt
          | _ => snd (run a env w) = inl (LibraryError cause)
          end)).
Proof.
  intros Hop Ht.
  apply trim_unique in Ht; subst t.
  destruct Hcomposing as (Hu & Hp & Ha).
  split; intros Hne.
  - assert (truthy (strip (user_text w)) = false) as Hblank
        by (rewrite Hne; reflexivity).
    destruct a; model.
    + destruct Ha as (Hx & He).
      rewrite Hu, Hp, Hop, Hblank, Hx, (docx_not_pdf _ Hx).
      libraries env u; model; try discriminate.
      all: cbn [In]; auto.
    + destruct Ha as (Hx & He).
      rewrite Hu, Hp, Hop, Hblank, Hx, (docx_not_pdf _ Hx).
      libraries env u; model; try discriminate.
      all: cbn [In]; auto.
    + destruct Ha as (Hsize & Hallowed & He).
      apply N.ltb_ge in Hsize.
      rewrite Hu, Hp, Hop, Hblank, Hsize, Hallowed.
      destruct (endswith (lower (name u)) (lit ".pdf")) eqn:Epdf.
      all: libraries env u; model; try discriminate.
      all: cbn [In]; auto.
  - apply truthy_nonempty in Hne.
    destruct a; model.
    + destruct Ha as (Hx & He).
      rewrite Hu, Hp, Hop, Hne, Hx, (docx_not_pdf _ Hx).
      revert He; explode; model; intros He; try discriminate He.
      all: offered.
    + destruct Ha as (Hx & He).
      rewrite Hu, Hp, Hop, Hne, Hx, (docx_not_pdf _ Hx).
      revert He; explode; model; intros He; try discriminate He.
      all: offered.
    + destruct Ha as (Hsize & Hallowed & He).
      apply N.ltb_ge in Hsize.
      rewrite Hu, Hp, Hop, Hne, Hsize, Hallowed.
      revert He; explode; model; intros He; try discriminate He.
      all: offered.
Qed.

End Composing.

(** The claim's own case: nothing extracted and the box holding ["  hi  "]. *)
Lemma append_result_text_hi :
  let env := libraries [] [] in
  let w := page (file "empty.docx" 1) Append (lit "  hi  ") in
  (forall d n m, In (d, n, m) (downloads (trace (run app3 env w))) ->
                 payload_text d = Some (LF :: LF :: lit "hi"))
  /\ previews (trace (run app3 env w)) = [LF :: LF :: lit "hi"]
  /\ exists n, In (docx_bytes {| paragraphs := [[]; []; lit "hi"] |}, n, docx_mime)
                 (downloads (trace (run app3 env w))).
Proof.
  assert (composing app3 (libraries [] [])
            (page (file "empty.docx" 1) Append (lit "  hi  "))
            (file "empty.docx" 1) []) as Hc.
  { repeat split; vm_compute; discriminate. }
  assert (Forall scalar (LF :: LF :: lit "hi")) as Hs.
  { repeat constructor; vm_compute; reflexivity. }
  destruct (append_result_text _ _ _ _ _ Hc (lit "hi") eq_refl
              (strip_trim (lit "  hi  ")))
    as (Htext & Hpreview & Hword & _).
  { discriminate. }
  split; [|split].
  - intros d n m Hin.
    apply (holds_payload_text (libraries [] [])); [exact (Htext d n m Hin)|].
    intros _; repeat constructor.
  - apply Hpreview; intros _; exact Hs.
  - apply Hword; [reflexivity|discriminate|intros _; exact Hs
                 |intros _; exact Hs|repeat constructor].
Defined.

Example append_hi_run :
  run app3 (libraries [] []) (page (file "empty.docx" 1) Append (lit "  hi  "))
  = ([upload_read; parser_called DOCX [];
      st_preview (LF :: LF :: lit "hi");
      st_download_button "Download appended content (.txt)"
        (txt_bytes (LF :: LF :: lit "hi")) (lit "empty_appended.txt")
        "text/plain";
      st_download_button "Download appended content (.docx)"
        (docx_bytes {| paragraphs := [[]; []; lit "hi"] |})
        (lit "empty_appended.docx") docx_mime],
     inr tt).
Proof. vm_compute; reflexivity. Qed.

(** Scenario 3: [x.pdf], Write, ["New content"]. *)
Lemma write_result_text_pdf :
  let env := libraries [Some (lit "Old")] [] in
  let w := page (file "x.pdf" 1) Write (lit "New content") in
  (forall d n m, In (d, n, m) (downloads (trace (run app3 env w))) ->
                 payload_text d = Some (lit "New content"))
  /\ previews (trace (run app3 env w)) = [lit "New content"]
  /\ exists n, In (docx_bytes {| paragraphs := [lit "New content"] |}, n, docx_mime)
                 (downloads (trace (run app3 env w))).
Proof.
  assert (composing app3 (libraries [Some (lit "Old")] [])
            (page (file "x.pdf" 1) Write (lit "New content"))
            (file "x.pdf" 1) (lit "Old")) as Hc.
  { repeat split; vm_compute; discriminate. }
  assert (Forall scalar (lit "New content")) as Hs.
  { repeat constructor; vm_compute; reflexivity. }
  destruct (write_result_text _ _ _ _ _ Hc (lit "New content") eq_refl
              (strip_trim (lit "New content")))
    as (_ & Hfull).
  destruct Hfull as (Htext & Hpreview & Hword & _); [discriminate|].
  split; [|split].
  - intros d n m Hin.
    apply (holds_payload_text (libraries [Some (lit "Old")] []));
      [exact (Htext d n m Hin)|].
    intros _; repeat constructor.
  - apply Hpreview; intros _; exact Hs.
  - apply Hword; [reflexivity|discriminate|intros _; exact Hs
                 |intros _; exact Hs|repeat constructor].
Defined.

(** C3 as stated fails in App1 and App2 on a PDF: the upload is read-only
    there.  With [x.pdf] uploaded, ["New content"] in the box and Write in
    the operation box, the run previews the text of the PDF and offers it as
    a Word file; the operation box is not read, and the text of the box
    appears nowhere. *)
Lemma write_on_pdf_is_read :
  let env := libraries [Some (lit "Old")] [] in
  let w := fun op => page (file "x.pdf" 1) op (lit "New content") in
  run app1 env (w Write)
  = ([upload_read; parser_called PDF []; st_preview (lit "Old");
      st_download_button "Download Word File"
        (docx_bytes {| paragraphs := [lit "Old"] |}) (lit "x.docx") docx_mime],
     inr tt)
  /\ run app1 env (w Read) = run app1 env (w Write)
  /\ map (fun e => payload_text (fst (fst e)))
       (downloads (trace (run app2 env (w Write))))
     = [Some (lit "Old")].
Proof. repeat split; vm_compute; reflexivity. Qed.

(** Scenario 4: [x.docx] holding ["Old"], Append, ["New"]. *)
Example append_old_new (a : app_id) :
  map (fun e => payload_text (fst (fst e)))
    (downloads (trace (run a (libraries [] [lit "Old"])
                         (page (file "x.docx" 1) Append (lit "New")))))
  = match a with
    | app1 => [Some (lit "Old" ++ [LF; LF] ++ lit "New")]
    | _ => [Some (lit "Old" ++ [LF; LF] ++ lit "New");
            Some (lit "Old" ++ [LF; LF] ++ lit "New")]
    end.
Proof. destruct a; vm_compute; reflexivity. Qed.

(** A vertical tab in the box: App3 offers the text file, python-docx
    refuses the line and the failure is reported in place of the Word file;
    App1 ends with the failure. *)
Example append_vertical_tab :
  run app3 (libraries [] [lit "Old"])
    (page (file "x.docx" 1) Append (lit "a" ++ [0x0B] ++ lit "b"))
  = ([upload_read; parser_called DOCX [];
      st_preview (lit "Old" ++ [LF; LF] ++ lit "a" ++ [0x0B] ++ lit "b");
      st_download_button "Download appended content (.txt)"
        (txt_bytes (lit "Old" ++ [LF; LF] ++ lit "a" ++ [0x0B] ++ lit "b"))
        (lit "x_appended.txt") "text/plain";
      st_error (BuilderFailed
                  (LibraryError "All strings must be XML compatible"))],
     inr tt)
  /\ run app1 (libraries [] [lit "Old"])
       (page (file "x.docx" 1) Append (lit "a" ++ [0x0B] ++ lit "b"))
     = ([upload_read; parser_called DOCX []],
        inl (LibraryError "All strings must be XML compatible")).
Proof. split; vm_compute; reflexivity. Qed.

Example write_blank_run :
  run app3 (libraries [Some (lit "Old")] []) (page (file "x.pdf" 1) Write (lit "   "))
  = ([upload_read; parser_called PDF []; st_error (EmptyInputError Write)],
     inr tt).
Proof. vm_compute; reflexivity. Qed.

(** ** Extraction *)



Example docx_extraction_run (a : app_id) :
  snd (docx_extractor a (libraries [] [lit "A"; []; lit "B"]) [])
  = inr (lit "A" ++ [LF; LF] ++ lit "B").
Proof. destruct a; vm_compute; reflexivity. Qed.



(** App1 and App2 keep a place for every page. *)
Lemma pdf_extraction_app12 (a : app_id) (env : Env) (data : bytes)
  (reader : bytes -> string + list (option str)) (pages : list (option str)) :
  a <> app3 ->
  PdfReader env = Some reader -> reader data = inr pages ->
  pdf_extractor a env data
  = ([parser_called PDF data],
     inr (strip (join blank_line (page_texts pages)))).
Proof.
  intros Ha Hreader Hpages.
  destruct a; [| |contradiction];
    cbv [pdf_extractor App1.extract_pdf_text App2.extract_pdf_text
         bind emit ret];
    rewrite Hreader, Hpages; reflexivity.
Qed.

(** C2, at a PDF whose second page has no text.  App3 gives
    ["Hello\n\nWorld"]; App1 and App2 give ["Hello\n\n\n\nWorld"], the empty
    page standing between two separators. *)
Example pdf_blank_page :
  let env := libraries [Some (lit "Hello"); None; Some (lit "World")] [] in
  snd (pdf_extractor app3 env []) = inr (lit "Hello" ++ [LF; LF] ++ lit "World")
  /\ snd (pdf_extractor app1 env [])
     = inr (lit "Hello" ++ [LF; LF; LF; LF] ++ lit "World")
  /\ snd (pdf_extractor app2 env [])
     = inr (lit "Hello" ++ [LF; LF; LF; LF] ++ lit "World").
Proof. repeat split; vm_compute; reflexivity. Qed.

(** Scenario 1 holds in the three scripts. *)
Example pdf_hello_world (a : app_id) :
  snd (pdf_extractor a (libraries [Some (lit "Hello"); Some (lit "World")] []) [])
  = inr (lit "Hello" ++ [LF; LF] ++ lit "World").
Proof. destruct a; vm_compute; reflexivity. Qed.

(** ** Validation *)

Section Validation.

Variables (env : Env) (w : Widgets) (u : UploadedFile).
Hypothesis Huploaded : uploaded_file w = Some u.

Lemma max_file_size : App3.MAX_FILE_SIZE_MB * 1024 * 1024 = 10485760.
Proof. reflexivity. Qed.

(** C6.  App3, Process pressed: an upload of more than 10 MiB is refused as
    too large and the run ends there, whatever the libraries, the name, the
    bytes, the operation and the options are; the bytes are not read and no
    parser is called.  An upload of at most 10 MiB is never refused as too
    large. *)
Theorem too_large_rejected :
  process_button w = true ->
  (10485760 < size u ->
   run app3 env w = ([st_error (FileTooLarge (size u))], inr tt)
   /\ parser_calls (trace (run app3 env w)) = []
   /\ ~ In upload_read (trace (run app3 env w)))
  /\ (size u <= 10485760 ->
      forall n, ~ In (FileTooLarge n) (errors (trace (run app3 env w)))).
Proof.
  intros Hp; split; intros Hsize.
  - assert (run app3 env w = ([st_error (FileTooLarge (size u))], inr tt)) as E.
    { model; rewrite Hp, Huploaded.
      rewrite (proj2 (N.ltb_lt _ _)) by (rewrite max_file_size; assumption).
      reflexivity. }
    rewrite E; repeat split; cbn; intuition discriminate.
  - intros n; model; rewrite Hp, Huploaded.
    rewrite (proj2 (N.ltb_ge _ _)) by (rewrite max_file_size; assumption).
    explode; model.
    all: cbn [In]; intuition discriminate.
Qed.

(** C10.  App3, Process pressed: an upload that is both too large and of an
    unsupported type is reported as too large, and as nothing else; the
    unsupported-format error is only ever reported for an upload within the
    size limit. *)
Theorem size_checked_first :
  process_button w = true ->
  (10485760 < size u -> App3.allowed_filetype (name u) = false ->
   errors (trace (run app3 env w)) = [FileTooLarge (size u)])
  /\ (In UnsupportedFormat (errors (trace (run app3 env w))) ->
      size u <= 10485760 /\ App3.allowed_filetype (name u) = false).
Proof.
  intros Hp; split.
  - intros Hsize _; model; rewrite Hp, Huploaded.
    rewrite (proj2 (N.ltb_lt _ _)) by (rewrite max_file_size; assumption).
    reflexivity.
  - model; rewrite Hp, Huploaded.
    destruct (N.ltb_spec (App3.MAX_FILE_SIZE_MB * 1024 * 1024) (size u))
      as [Hsize|Hsize].
    { cbn; intuition discriminate. }
    rewrite max_file_size in Hsize.
    intros Hin; split; [assumption|].
    revert Hin; explode; model.
    all: cbn [In]; intuition discriminate.
Qed.

End Validation.

(** Scenario 6: a PDF of 11 MiB. *)
Lemma too_large_rejected_11MiB :
  run app3 (libraries [Some (lit "Hello")] [])
    (page (file "big.pdf" 11534336) Read [])
  = ([st_error (FileTooLarge 11534336)], inr tt).
Proof.
  apply (too_large_rejected (libraries [Some (lit "Hello")] [])
           (page (file "big.pdf" 11534336) Read [])
           (file "big.pdf" 11534336) eq_refl eq_refl).
  reflexivity.
Defined.

Example at_the_limit_accepted :
  run app3 (libraries [Some (lit "Hello")] [])
    (page (file "big.pdf" 10485760) Read [])
  = ([upload_read; parser_called PDF []; st_preview (lit "Hello");
      st_download_button "Download extracted text (.txt)"
        (txt_bytes (lit "Hello")) (lit "big_extracted.txt") "text/plain";
      st_download_button "Download extracted content (.docx)"
        (docx_bytes {| paragraphs := [lit "Hello"] |})
        (lit "big_extracted.docx") docx_mime],
     inr tt).
Proof. vm_compute; reflexivity. Qed.

(** An archive of 20 MiB: too large, and not reported as unsupported. *)
Lemma size_checked_first_archive :
  errors (trace (run app3 (libraries [] [])
                   (page (file "backup.zip" 20971520) Read [])))
  = [FileTooLarge 20971520].
Proof.
  apply (size_checked_first (libraries [] [])
           (page (file "backup.zip" 20971520) Read [])
           (file "backup.zip" 20971520) eq_refl eq_refl);
    reflexivity.
Defined.

Section Format.

Variables (a : app_id) (env : Env) (w : Widgets) (u : UploadedFile).
Hypothesis Huploaded : uploaded_file w = Some u.

Lemma allowed_suffix (filename : str) :
  endswith (lower filename) (lit ".pdf")
  || (endswith (lower filename) (lit ".docx") || false) = true
  <-> suffix_of (lower filename) (lit ".pdf")
      \/ suffix_of (lower filename) (lit ".docx").
Proof.
  rewrite orb_false_r, orb_true_iff, !endswith_suffix; reflexivity.
Qed.

Lemma supported_passes :
  suffix_of (lower (name u)) (lit ".pdf")
  \/ suffix_of (lower (name u)) (lit ".docx") ->
  ~ In UnsupportedFormat (errors (trace (run a env w))).
Proof.
  intros Hs; apply allowed_suffix in Hs.
  destruct a; model; rewrite Huploaded, ?Hs.
  all: explode; model.
  all: try (rewrite Hs in *; discriminate).
  all: cbn [In]; intuition discriminate.
Qed.

(** C5, as the scripts have it.  An upload whose lowered name ends in
    neither [.pdf] nor [.docx] is refused as unsupported, and nothing is
    parsed, previewed or offered; App3 does so when Process is pressed and
    the upload is within the size limit.  An upload whose lowered name ends
    in one of the two is never refused as unsupported; the test reads the end
    of the name alone and takes capitals for small letters. *)
Theorem format_check :
  (a = app3 -> process_button w = true /\ size u <= 10485760) ->
  (~ (suffix_of (lower (name u)) (lit ".pdf")
      \/ suffix_of (lower (name u)) (lit ".docx")) ->
   errors (trace (run a env w)) = [UnsupportedFormat]
   /\ parser_calls (trace (run a env w)) = []
   /\ downloads (trace (run a env w)) = []
   /\ previews (trace (run a env w)) = [])
  /\ (suffix_of (lower (name u)) (lit ".pdf")
      \/ suffix_of (lower (name u)) (lit ".docx") ->
      ~ In UnsupportedFormat (errors (trace (run a env w))))
  /\ (forall p e, name u = p ++ e ->
                  lower e = lit ".pdf" \/ lower e = lit ".docx" ->
                  ~ In UnsupportedFormat (errors (trace (run a env w)))).
Proof.
  intros Ha; split; [|split].
  - intros Hs; rewrite <- allowed_suffix in Hs.
    apply not_true_is_false in Hs.
    destruct a; model; rewrite Huploaded, ?Hs.
    + auto.
    + auto.
    + destruct Ha as (Hp & Hsize); [reflexivity|].
      rewrite Hp.
      rewrite (proj2 (N.ltb_ge _ _)) by (rewrite max_file_size; assumption).
      rewrite ?Hs; auto.
  - apply supported_passes.
  - intros p e Hname He; apply supported_passes.
    rewrite Hname, lower_app.
    destruct He as [-> | ->]; [left|right]; exists (lower p); reflexivity.
Qed.

End Format.

(** The names of Scenarios 5 and 1, and a name in capitals. *)
Lemma format_check_names :
  errors (trace (run app3 (libraries [] []) (page (file "image.png" 1) Read [])))
  = [UnsupportedFormat]
  /\ ~ In UnsupportedFormat
       (errors (trace (run app1 (libraries [] [])
                         (page (file "NOTES.PDF" 1) Read [])))).
Proof.
  split.
  - apply (format_check app3 (libraries [] []) (page (file "image.png" 1) Read [])
             (file "image.png" 1) eq_refl).
    + intros _; split; [reflexivity|vm_compute; discriminate].
    + rewrite <- allowed_suffix; vm_compute; discriminate.
  - apply (format_check app1 (libraries [] []) (page (file "NOTES.PDF" 1) Read [])
             (file "NOTES.PDF" 1) eq_refl).
    + discriminate.
    + left; exists (lit "notes"); reflexivity.
Defined.

(** C5 as stated fails in App3 on an upload with an unsupported name and
    more than 10 MiB: it is refused as too large. *)
Lemma unsupported_and_too_large :
  App3.allowed_filetype (lit "image.png") = false
  /\ errors (trace (run app3 (libraries [] [])
                      (page (file "image.png" 11534336) Read [])))
     = [FileTooLarge 11534336].
Proof. split; vm_compute; reflexivity. Qed.

Example stems :
  stem (lit "x.pdf") = lit "x"
  /\ stem (lit "Annual.Report.DOCX") = lit "Annual.Report"
  /\ stem (lit ".pdf") = lit ".pdf".
Proof. repeat split; vm_compute; reflexivity. Qed.

(** ** Exports *)

(** C7, for the lines python-docx takes.  With python-docx installed, the
    Word builder of every script hands the lines of the text to the library
    one by one, in order, an empty line as any other.  Where the library
    stores each line as it is, the builder succeeds and the paragraphs of the
    document are the lines of the text: the pieces between line feeds, an
    empty piece being an empty paragraph, so that there is one paragraph more
    than there are line feeds.  Whatever the library stores, there is one
    paragraph for each line.  Where it refuses a line, the builder raises the
    library's failure and there is no document. *)
Theorem built_paragraphs (a : app_id) (env : Env) (text : str)
  (opener : bytes -> string + list str) :
  docx env = Some opener ->
  (verbatim env (split LF text) ->
   exists d,
     docx_builder a env text = ([], inr (docx_bytes d))
     /\ lines_of text (paragraphs d)
     /\ paragraphs d = split LF text
     /\ length (paragraphs d) = S (count_occ N.eq_dec text LF))
  /\ (forall ps, stored env (split LF text) ps ->
        docx_builder a env text = ([], inr (docx_bytes {| paragraphs := ps |}))
        /\ length ps = S (count_occ N.eq_dec text LF))
  /\ (forall cause, refused env (split LF text) cause ->
        docx_builder a env text = ([], inl (LibraryError cause))).
Proof.
  intros Hdocx.
  assert (forall ps, stored env (split LF text) ps ->
            docx_builder a env text
            = ([], inr (docx_bytes {| paragraphs := ps |}))) as Hbuilt.
  { intros ps Hps.
    pose proof (proj2 (built_stored env (split LF text)
                         {| paragraphs := ps |}) Hps) as Hb.
    destruct a; cbv [docx_builder App1.create_docx_bytes_from_text
                     App2.create_docx_bytes_from_text
                     App3.create_docx_bytes_from_text ret];
      rewrite Hdocx, Hb; reflexivity. }
  split; [|split].
  - intros Hv; exists {| paragraphs := split LF text |}.
    split; [apply Hbuilt, verbatim_stored, Hv|].
    cbn [paragraphs]; auto using split_lines_of, split_length.
  - intros ps Hps; split; [apply Hbuilt, Hps|].
    rewrite (stored_length _ _ _ Hps); apply split_length.
  - intros cause Hr; apply built_refused in Hr.
    destruct a; cbv [docx_builder App1.create_docx_bytes_from_text
                     App2.create_docx_bytes_from_text
                     App3.create_docx_bytes_from_text raise];
      rewrite Hdocx, Hr; reflexivity.
Qed.

(** A text with an empty line. *)
Lemma built_paragraphs_empty_line :
  exists d,
    docx_builder app1 (libraries [] []) (lit "a" ++ [LF; LF] ++ lit "b")
    = ([], inr (docx_bytes d))
    /\ paragraphs d = [lit "a"; []; lit "b"].
Proof.
  destruct (proj1 (built_paragraphs app1 (libraries [] [])
                     (lit "a" ++ [LF; LF] ++ lit "b") (fun _ => inr []) eq_refl))
    as (d & Hd & _ & Hlines & _).
  { repeat constructor. }
  exists d; split; [exact Hd|exact Hlines].
Defined.

(** C7 as stated fails on a line python-docx does not take as it is.  With
    a library that, as python-docx does, refuses a form feed and keeps a
    carriage return as a line break: of ["a\fb"] no document is built, and
    the document built of ["a\rb"] has the paragraph ["a\nb"], which is no
    line of the text. *)
Lemma form_feed_not_built :
  docx_builder app3 (libraries [] []) (lit "a" ++ [0x0C] ++ lit "b")
  = ([], inl (LibraryError "All strings must be XML compatible"))
  /\ exists d,
       docx_builder app3 (libraries [] []) (lit "a" ++ [0x0D] ++ lit "b")
       = ([], inr (docx_bytes d))
       /\ paragraphs d = [lit "a" ++ [LF] ++ lit "b"]
       /\ paragraphs d <> split LF (lit "a" ++ [0x0D] ++ lit "b").
Proof.
  split; [reflexivity|].
  exists {| paragraphs := [lit "a" ++ [LF] ++ lit "b"] |}.
  repeat split; vm_compute; discriminate.
Qed.

(** C9, for the strings that can be encoded.  A string without surrogate
    code points is encoded, and its bytes decode to the string itself. *)
Theorem text_export_round_trip (text : str) :
  Forall scalar text ->
  exists b, encode text = ([], inr (txt_bytes b))
            /\ decode_utf8 b = Some text.
Proof.
  intros H; destruct (decode_encode_utf8 text H) as (b & Hb & Hd).
  exists b; unfold encode; rewrite Hb; auto.
Qed.

(** The euro sign, a floppy disk, an accented letter and an ASCII one. *)
Lemma text_export_round_trip_sample :
  exists b, encode [0x20AC; 0x1F4BE; 0xE9; 0x41] = ([], inr (txt_bytes b))
            /\ decode_utf8 b = Some [0x20AC; 0x1F4BE; 0xE9; 0x41].
Proof.
  apply text_export_round_trip.
  repeat constructor; vm_compute; reflexivity.
Defined.

(** C9 as stated fails on a string that holds a lone surrogate: the encoder
    raises and there are no bytes to decode. *)
Lemma lone_surrogate_not_encoded :
  encode [0x61; 0xD800] = ([], inl UnicodeEncodeError).
Proof. reflexivity. Qed.

(** ASCII text is exported byte for byte. *)
Lemma encode_ascii (text : str) :
  Forall (fun c => c < 0x80) text -> encode_utf8 text = Some text.
Proof.
  induction 1 as [|c text Hc _ IH]; simpl; [reflexivity|].
  unfold encode_cp.
  destruct (N.ltb_spec c 0x80); [|lia].
  rewrite IH; reflexivity.
Qed.

Section Names.

Variables (a : app_id) (env : Env) (w : Widgets) (u : UploadedFile).
Hypothesis Huploaded : uploaded_file w = Some u.


End Names.


(** A Word upload under Write in App1: the export has the suffix, and the
    name without one is not the name of an export. *)
Example written_needs_suffix :
  export_name app1 Write (lit "x.docx") (docx_bytes new_document)
    (lit "x_written.docx")
  /\ ~ export_name app1 Write (lit "x.docx") (docx_bytes new_document)
        (lit "x.docx").
Proof.
  assert (~ converting app1 (lit "x.docx")) as Hn.
  { intros [_ Hc]; apply endswith_suffix in Hc; vm_compute in Hc;
      discriminate Hc. }
  split; [left; split; [exact Hn|reflexivity]|].
  intros [[_ H]|[H _]]; [vm_compute in H; discriminate H|exact (Hn H)].
Qed.


(** ** More about extraction *)

Section Extracted.

Lemma strip_nil : strip [] = [].
Proof. reflexivity. Qed.

(** What an extraction returns has no whitespace at either end: stripping
    it again changes nothing.  This holds of the six extraction functions,
    also where the library is missing and App1 or App2 return [""]. *)
Theorem extraction_trimmed (a : app_id) (env : Env) (data : bytes) (text : str) :
  snd (pdf_extractor a env data) = inr text
  \/ snd (docx_extractor a env data) = inr text ->
  strip text = text /\ bare text.
Proof.
  intros H.
  assert (strip text = text) as E.
  { destruct H as [H|H]; destruct a;
      unfold pdf_extractor, docx_extractor in H; revert H.
    all: explode; model; intros H; try discriminate.
    all: injection H as <-; auto using strip_idempotent, strip_nil. }
  split; [exact E|].
  rewrite <- E.
  destruct (strip_trim text) as (_ & _ & _ & _ & _ & Hb); exact Hb.
Qed.

End Extracted.

Lemma extraction_trimmed_sample :
  strip (lit "A") = lit "A" /\ bare (lit "A").
Proof.
  apply (extraction_trimmed app1 (libraries [] [[32]; lit " A"; [10]]) []).
  right; vm_compute; reflexivity.
Defined.

Section BlankPages.

Lemma strip_padding (ws1 x ws2 : str) :
  Forall space ws1 -> Forall space ws2 -> strip (ws1 ++ x ++ ws2) = strip x.
Proof.
  intros H1 H2; symmetry; apply trim_unique.
  destruct (strip_trim x) as (l & r & Hx & Hl & Hr & Hb).
  exists (ws1 ++ l), (r ++ ws2); repeat split; try apply Hb.
  - rewrite Hx at 1; rewrite <- !app_assoc; reflexivity.
  - apply Forall_app; auto.
  - apply Forall_app; auto.
Qed.

Lemma blank_line_space : Forall space blank_line.
Proof. repeat constructor. Qed.

Lemma join_blanks_before (pre l : list str) :
  Forall (fun t => t = []) pre ->
  exists ws, Forall space ws /\ join blank_line (pre ++ l) = ws ++ join blank_line l.
Proof.
  induction 1 as [|t pre -> _ (ws & Hws & IH)].
  - exists []; auto.
  - cbn [List.app join].
    match goal with
    | |- context [match ?x with _ => _ end] => destruct x as [|y r] eqn:E
    end.
    + exists []; split; [constructor|].
      apply app_eq_nil in E; destruct E as [_ ->]; reflexivity.
    + exists (blank_line ++ ws); split.
      * apply Forall_app; auto using blank_line_space.
      * cbn [List.app]; rewrite IH, <- app_assoc; reflexivity.
Qed.

Lemma join_blanks_after (l post : list str) :
  Forall (fun t => t = []) post ->
  exists ws, Forall space ws /\ join blank_line (l ++ post) = join blank_line l ++ ws.
Proof.
  intros Hpost.
  destruct (join_blanks_before post [] Hpost) as (wp & Hwp & Ep).
  rewrite ?app_nil_r in Ep; cbn [join] in Ep; rewrite ?app_nil_r in Ep.
  induction l as [|x l (ws & Hws & IH)].
  - exists wp; auto.
  - cbn [List.app join].
    destruct l as [|y l].
    + cbn [List.app] in *.
      destruct post as [|p post]; [exists []; rewrite app_nil_r; auto|].
      exists (blank_line ++ wp); split.
      * apply Forall_app; auto using blank_line_space.
      * rewrite Ep; reflexivity.
    + exists ws; split; [assumption|].
      cbn [List.app] in *; rewrite IH, <- !app_assoc; reflexivity.
Qed.

Lemma filter_blanks (l : list str) :
  Forall (fun t => t = []) l -> filter truthy l = [].
Proof. induction 1 as [|t l -> _ IH]; simpl; auto. Qed.

Lemma filter_texts (l : list str) :
  Forall (fun t => t <> []) l -> filter truthy l = l.
Proof.
  induction 1 as [|t l Ht _ IH]; simpl; auto.
  apply truthy_nonempty in Ht; rewrite Ht, IH; reflexivity.
Qed.

(** On a PDF whose pages without text all stand at the start or at the end
    (in particular, on a PDF whose pages all have text), the three scripts
    extract the same text: the placeholders App1 and App2 leave for such
    pages are removed by the final [strip]. *)
Theorem pdf_extraction_agrees (a : app_id) (env : Env) (data : bytes)
  (reader : bytes -> string + list (option str)) (pages : list (option str)) :
  PdfReader env = Some reader -> reader data = inr pages ->
  blank_only_outside (page_texts pages) ->
  pdf_extractor a env data = pdf_extractor app3 env data.
Proof.
  intros Hreader Hpages (pre & mid & post & E & Hpre & Hmid & Hpost).
  destruct a; [| |reflexivity].
  all: cbv [pdf_extractor App1.extract_pdf_text App2.extract_pdf_text
            App3.extract_text_from_pdf_bytes bind emit ret].
  all: rewrite Hreader, Hpages, page_loop_acc.
  all: fold (page_texts pages); rewrite E.
  all: rewrite !filter_app, (filter_blanks pre), (filter_blanks post),
         (filter_texts mid), !app_nil_r by assumption.
  all: destruct (join_blanks_before pre (mid ++ post) Hpre) as (w1 & Hw1 & ->).
  all: destruct (join_blanks_after mid post Hpost) as (w2 & Hw2 & ->).
  all: cbn [List.app]; rewrite strip_padding by assumption; reflexivity.
Qed.

Lemma pdf_extraction_agrees_blank_ends :
  pdf_extractor app1
    (libraries [None; Some (lit "Hello"); Some (lit "World"); Some []] []) []
  = pdf_extractor app3
      (libraries [None; Some (lit "Hello"); Some (lit "World"); Some []] []) [].
Proof.
  apply (pdf_extraction_agrees app1
           (libraries [None; Some (lit "Hello"); Some (lit "World"); Some []] [])
           []
           (fun _ => inr [None; Some (lit "Hello"); Some (lit "World"); Some []])
           [None; Some (lit "Hello"); Some (lit "World"); Some []]
           eq_refl eq_refl).
  exists [[]], [lit "Hello"; lit "World"], [[]].
  repeat split; repeat constructor; discriminate.
Defined.

End BlankPages.

(** ** How a run ends *)

(** Rewriting with what the case analysis found out. *)
Ltac found :=
  repeat match goal with
    | E : ?l = _ |- context [?l] => rewrite E
    end.

(** The run at hand got to its operation. *)
Ltac composed :=
  unfold composing;
  split; [eassumption|];
  split; [assumption|];
  split; [apply N.ltb_ge; assumption|];
  split; [model; found; reflexivity|];
  model; found; reflexivity.

Section Endings.

Variables (env : Env) (w : Widgets).

(** App3 lets no failure of a library escape.  A run ends normally, or by
    [st.stop()] (line 307) after an extraction that failed, or with
    [UnicodeEncodeError].  When it ends by [st.stop()], one error was
    reported, naming the missing library or the parser's failure, and
    nothing was previewed or offered.  It ends with [UnicodeEncodeError]
    only when it got to its operation and the result text holds a code point
    that has no encoding: a preview or a text export raised (lines 315-317,
    323, 346, 351, 374 and 379 stand in no [try]). *)
Theorem app3_endings :
  (snd (run app3 env w) = inr tt
   \/ snd (run app3 env w) = inl StopException
   \/ snd (run app3 env w) = inl UnicodeEncodeError)
  /\ (snd (run app3 env w) = inl StopException ->
      (exists f, errors (trace (run app3 env w)) = [NotInstalled f]
                 \/ exists cause,
                      errors (trace (run app3 env w)) = [ExtractionFailed f cause])
      /\ previews (trace (run app3 env w)) = []
      /\ downloads (trace (run app3 env w)) = [])
  /\ (snd (run app3 env w) = inl UnicodeEncodeError ->
      exists u extracted,
        composing app3 env w u extracted
        /\ ~ Forall scalar
               (result_text (operation w) extracted (user_text w))).
Proof.
  model; explode; model.
  all: split; [auto|split]; intros H; try discriminate H; auto.
  all: try (split; [|auto];
            first [ exists PDF; solve [eauto] | exists DOCX; solve [eauto] ]).
  all: match goal with
       | Hu : uploaded_file w = Some ?u |- _ => exists u
       end; eexists; (split; [composed|]).
  all: cbn [result_text]; intros Hs.
  all: match goal with
       | E : encode_utf8 ?x = None |- _ =>
           apply (proj1 (encode_utf8_none x) E);
           solve [ auto using scalar_first2000, scalar_first30lines ]
       end.
Qed.

End Endings.

Section Failures.

Variables (env : Env) (w : Widgets) (u : UploadedFile).
Hypothesis Huploaded : uploaded_file w = Some u.
Hypothesis Hallowed : App3.allowed_filetype (name u) = true.

(** App3, Process pressed, an upload that passes the two checks.  When the
    library for its format is missing, or fails on the file, the run reads
    the upload, reports that one error and stops: whatever the operation and
    the text box are, also for Write, which does not use the extracted text. *)
Theorem app3_extraction_failure :
  process_button w = true -> size u <= 10485760 ->
  (library_missing env (format_of (name u)) ->
   run app3 env w
   = ([upload_read; st_error (NotInstalled (format_of (name u)))],
      inl StopException))
  /\ (forall cause,
        parser_fails env (format_of (name u)) (content u) cause ->
        run app3 env w
        = ([upload_read; parser_called (format_of (name u)) (content u);
            st_error (ExtractionFailed (format_of (name u)) cause)],
           inl StopException)).
Proof.
  intros Hp Hsize.
  apply N.ltb_ge in Hsize; rewrite <- max_file_size in Hsize.
  unfold format_of, library_missing, parser_fails.
  split; [intros Hmiss|intros cause Hfail]; model;
    rewrite Hp, Huploaded, Hsize, Hallowed.
  - destruct (endswith (lower (name u)) (lit ".pdf")); rewrite Hmiss; reflexivity.
  - destruct (endswith (lower (name u)) (lit ".pdf"));
      destruct Hfail as (f & -> & ->); reflexivity.
Qed.

(** App1 and App2 do not catch a parser's failure: the run reads the upload,
    calls the parser and ends with the library's exception, before anything
    is shown, whatever the buttons and options are. *)
Theorem parser_failure_escapes (a : app_id) (cause : string) :
  a <> app3 ->
  parser_fails env (format_of (name u)) (content u) cause ->
  run a env w
  = ([upload_read; parser_called (format_of (name u)) (content u)],
     inl (LibraryError cause)).
Proof.
  intros Ha Hfail.
  unfold format_of, parser_fails in *.
  assert (endswith (lower (name u)) (lit ".pdf") = false ->
          endswith (lower (name u)) (lit ".docx") = true) as Hdocx.
  { revert Hallowed; model.
    destruct (endswith (lower (name u)) (lit ".pdf")); [discriminate|].
    destruct (endswith (lower (name u)) (lit ".docx")); auto. }
  destruct a; [| |contradiction]; model; rewrite Huploaded, Hallowed.
  all: destruct (endswith (lower (name u)) (lit ".pdf"));
    [|rewrite Hdocx by reflexivity];
    destruct Hfail as (f & -> & ->); reflexivity.
Qed.

End Failures.

Lemma app3_extraction_failure_corrupt :
  run app3 (failing "EOF marker not found")
    (page (file "x.pdf" 1) Write (lit "New content"))
  = ([upload_read; parser_called PDF [];
      st_error (ExtractionFailed PDF "EOF marker not found")],
     inl StopException).
Proof.
  refine (proj2 (app3_extraction_failure (failing "EOF marker not found")
                   (page (file "x.pdf" 1) Write (lit "New content"))
                   (file "x.pdf" 1) eq_refl eq_refl eq_refl _)
            "EOF marker not found"%string _).
  - vm_compute; discriminate.
  - exists (fun _ => inl "EOF marker not found"%string); split; reflexivity.
Defined.

Lemma parser_failure_escapes_corrupt :
  run app1 (failing "EOF marker not found")
    (page (file "x.pdf" 1) Read [])
  = ([upload_read; parser_called PDF []],
     inl (LibraryError "EOF marker not found")).
Proof.
  refine (parser_failure_escapes (failing "EOF marker not found")
            (page (file "x.pdf" 1) Read []) (file "x.pdf" 1)
            eq_refl eq_refl app1 "EOF marker not found" _ _).
  - discriminate.
  - exists (fun _ => inl "EOF marker not found"%string); split; reflexivity.
Defined.

Section WithoutDocx.

Variables (env : Env) (w : Widgets) (u : UploadedFile).
Hypothesis Huploaded : uploaded_file w = Some u.
Hypothesis Hmissing : docx env = None.

(** A Word upload with python-docx missing, Process pressed, Write or Append
    with a text box that is not blank.  App1 reports the missing library and
    then fails with [AttributeError] in [create_docx_bytes_from_text],
    offering nothing.  App2 tests [docx is not None] first: it never fails
    so, and what it offers are text files only. *)
Theorem write_without_docx :
  endswith (lower (name u)) (lit ".docx") = true ->
  process_button w = true -> operation w <> Read ->
  strip (user_text w) <> [] ->
  run app1 env w
  = ([upload_read; st_error (NotInstalled DOCX)], inl AttributeError)
  /\ snd (run app2 env w) <> inl AttributeError
  /\ (forall d n m, In (d, n, m) (downloads (trace (run app2 env w))) ->
                    kind_of d = as_txt).
Proof.
  intros Hx Hp Hop Hne.
  apply truthy_nonempty in Hne.
  split; [|split]; model;
    rewrite Huploaded, Hmissing, Hp, Hne, Hx, (docx_not_pdf _ Hx).
  - destruct (operation w); [contradiction| |]; reflexivity.
  - explode; model; discriminate.
  - intros d n m; explode; model; members; reflexivity.
Qed.

End WithoutDocx.

Lemma write_without_docx_sample :
  run app1 no_libraries (page (file "x.docx" 1) Write (lit "New"))
  = ([upload_read; st_error (NotInstalled DOCX)], inl AttributeError)
  /\ snd (run app2 no_libraries (page (file "x.docx" 1) Write (lit "New")))
     <> inl AttributeError
  /\ (forall d n m,
        In (d, n, m)
          (downloads (trace (run app2 no_libraries
                               (page (file "x.docx" 1) Write (lit "New"))))) ->
        kind_of d = as_txt).
Proof.
  apply (write_without_docx no_libraries
           (page (file "x.docx" 1) Write (lit "New")) (file "x.docx" 1)
           eq_refl eq_refl eq_refl eq_refl); discriminate.
Defined.

(** ** What is read and parsed *)

Section Dispatch.

Variables (a : app_id) (env : Env) (w : Widgets) (u : UploadedFile).
Hypothesis Huploaded : uploaded_file w = Some u.

(** In every run the upload is read at most once and a parser is called at
    most once, on the bytes of the upload as they are; the PDF parser is
    called only for a name that ends in [.pdf] when lowered, the Word parser
    only for one that ends in [.docx] and not in [.pdf]. *)
Theorem parser_dispatch :
  (reads (trace (run a env w)) <= 1)%nat
  /\ (parser_calls (trace (run a env w)) = []
      \/ (parser_calls (trace (run a env w)) = [(PDF, content u)]
          /\ endswith (lower (name u)) (lit ".pdf") = true)
      \/ (parser_calls (trace (run a env w)) = [(DOCX, content u)]
          /\ endswith (lower (name u)) (lit ".docx") = true
          /\ endswith (lower (name u)) (lit ".pdf") = false)).
Proof.
  destruct a; model; rewrite Huploaded.
  all: explode; model.
  all: split; [cbn; lia|].
  all: first [ solve [left; reflexivity]
             | solve [right; left; split; [reflexivity|auto]]
             | solve [right; right; repeat split; auto] ].
Qed.

End Dispatch.

Lemma parser_dispatch_capitals :
  parser_calls (trace (run app3 (libraries [Some (lit "Hello")] [])
                         (page (file "NOTES.PDF" 1) Read [])))
  = [(PDF, [])].
Proof.
  destruct (parser_dispatch app3 (libraries [Some (lit "Hello")] [])
              (page (file "NOTES.PDF" 1) Read []) (file "NOTES.PDF" 1) eq_refl)
    as (_ & [H|[(H & _)|(H & _)]]).
  - vm_compute in H; discriminate H.
  - exact H.
  - vm_compute in H; discriminate H.
Defined.

(** ** Read *)

Ltac truthy_cases :=
  repeat match goal with
    | H : truthy (strip (strip ?x)) = _ |- _ => rewrite strip_idempotent in H
    end.

(** What a run under Read did, read off its explicit trace. *)
Ltac read_off :=
  split; [intros ? ? ?; members; held|];
  split; [intros Hshown; first [reflexivity | unshown]|];
  split;
  [ cbn [In]; split;
    [ intros H; repeat (destruct H as [H|H]; try discriminate H);
      try contradiction;
      refine (conj eq_refl _);
      match goal with
      | E : truthy ?x = false |- ?x = [] =>
          destruct x; [reflexivity|discriminate E]
      end
    | intros (Ha3 & Hnil); try discriminate Ha3;
      match goal with
      | E : truthy ?x = true |- _ => rewrite Hnil in E; discriminate E
      | _ => auto 8
      end ]|];
  split; [intros ?; cbn [In]; intuition discriminate|];
  split;
  [ intros Htxt Hs; unfold wants_txt in *;
    first [ congruence
          | unshown
          | solve [eexists; split; [eassumption|cbn [In]; auto 6]] ]|];
  split;
  [ intros Ha1 Hwd Hdx Hshown Htxt ps Hps; unfold wants_docx, wants_txt in *;
    first [ congruence
          | exfalso; apply Ha1; reflexivity
          | unshown
          | built; cbn [In]; auto 6 ]|];
  split;
  [ intros Ha1 Hwd Hdx Hshown Htxt cause Href;
    unfold wants_docx, wants_txt in *;
    first [ congruence
          | exfalso; apply Ha1; reflexivity
          | unshown
          | built; first [ reflexivity
                         | split; [cbn [In]; auto 6|reflexivity] ] ]|];
  split; [intros Ha1; first [discriminate Ha1 | reflexivity]|];
  intros Hbad;
  first [ exfalso; apply Hbad; eapply encode_utf8_some; eassumption
        | split; [reflexivity|split; reflexivity] ].

Section Reading.

Variables (a : app_id) (env : Env) (w : Widgets) (u : UploadedFile).
Variable extracted : str.
Hypothesis Hcomposing : composing a env w u extracted.
Hypothesis Hread : operation w = Read.

(** When the run gets to Read, the result text is the extracted text as it
    is, and the text box is not looked at.  Every download holds exactly the
    extracted text; the one preview is made of it (cut to 2000 characters,
    or to 30 lines in App3, unless the full preview is asked for); no
    empty-input error is reported.  App3 alone warns of an empty extraction,
    exactly when the text is empty.  App2 and App3 offer the text file and
    the Word file they are asked for, named after the stem, the text being
    one the run can show and encode, python-docx being there and storing its
    lines; where python-docx refuses a line, App3 reports the failure and
    App2 ends with it.  App1 offers nothing.  A preview that has no encoding
    ends the run before anything is shown or offered. *)
Theorem read_result_text :
  (forall box, run a env (with_user_text w box) = run a env w)
  /\ (forall d n m, In (d, n, m) (downloads (trace (run a env w))) ->
                    holds env d extracted)
  /\ (Forall scalar (read_preview a w extracted) ->
      previews (trace (run a env w)) = [read_preview a w extracted])
  /\ (In st_warning (trace (run a env w)) <-> a = app3 /\ extracted = [])
  /\ (forall op, ~ In (EmptyInputError op) (errors (trace (run a env w))))
  /\ (wants_txt a w = true -> Forall scalar extracted ->
      exists b,
        encode_utf8 extracted = Some b
        /\ In (txt_bytes b,
               stem (name u) ++ lit (operation_suffix a Read) ++ lit ".txt",
               "text/plain"%string)
             (downloads (trace (run a env w))))
  /\ (a <> app1 -> wants_docx a w = true -> docx env <> None ->
      Forall scalar (read_preview a w extracted) ->
      (wants_txt a w = true -> Forall scalar extracted) ->
      forall ps, stored env (split LF extracted) ps ->
      In (docx_bytes {| paragraphs := ps |},
          stem (name u) ++ lit (operation_suffix a Read) ++ lit ".docx",
          docx_mime)
        (downloads (trace (run a env w))))
  /\ (a <> app1 -> wants_docx a w = true -> docx env <> None ->
      Forall scalar (read_preview a w extracted) ->
      (wants_txt a w = true -> Forall scalar extracted) ->
      forall cause, refused env (split LF extracted) cause ->
      match a with
      | app3 => In (BuilderFailed (LibraryError cause))
                  (errors (trace (run a env w)))
                /\ snd (run a env w) = inr tt
      | _ => snd (run a env w) = inl (LibraryError cause)
      end)
  /\ (a = app1 -> downloads (trace (run a env w)) = [])
  /\ (~ Forall scalar (read_preview a w extracted) ->
      snd (run a env w) = inl UnicodeEncodeError
      /\ previews (trace (run a env w)) = []
      /\ downloads (trace (run a env w)) = []).
Proof.
  split.
  { intros box; destruct a; model;
      cbn [with_user_text uploaded_file operation user_text process_button
           convert_button show_preview download_txt download_docx
           download_as_docx download_as_txt show_full_preview];
      rewrite Hread; reflexivity. }
  destruct Hcomposing as (Hu & Hp & Ha).
  unfold read_preview.
  destruct a.
  - destruct Ha as (Hx & He).
    model; rewrite Hu, Hp, Hread, Hx, (docx_not_pdf _ Hx).
    revert He; explode; model; intros He; try discriminate He.
    all: injection He as <-.
    all: read_off.
  - destruct Ha as (Hx & He).
    model; rewrite Hu, Hp, Hread, Hx, (docx_not_pdf _ Hx).
    revert He; explode; model; intros He; try discriminate He.
    all: injection He as <-.
    all: read_off.
  - destruct Ha as (Hsize & Hallowed & He).
    apply N.ltb_ge in Hsize.
    model; rewrite Hu, Hp, Hread, Hsize, Hallowed.
    revert He; explode; model; intros He; try discriminate He.
    all: injection He as <-.
    all: truthy_cases; read_off.
Qed.

End Reading.

(** Read of a PDF without text in App3: the warning, the empty preview and
    the two downloads. *)
Lemma read_result_text_blank_pdf :
  In st_warning
    (trace (run app3 (libraries [None; Some []] [])
              (page (file "scan.pdf" 1) Read (lit "ignored"))))
  /\ previews
       (trace (run app3 (libraries [None; Some []] [])
                 (page (file "scan.pdf" 1) Read (lit "ignored"))))
     = [[]]
  /\ In (txt_bytes [], lit "scan_extracted.txt", "text/plain"%string)
       (downloads
          (trace (run app3 (libraries [None; Some []] [])
                    (page (file "scan.pdf" 1) Read (lit "ignored")))))
  /\ In (docx_bytes {| paragraphs := [[]] |}, lit "scan_extracted.docx",
         docx_mime)
       (downloads
          (trace (run app3 (libraries [None; Some []] [])
                    (page (file "scan.pdf" 1) Read (lit "ignored"))))).
Proof.
  assert (composing app3 (libraries [None; Some []] [])
            (page (file "scan.pdf" 1) Read (lit "ignored"))
            (file "scan.pdf" 1) []) as Hc.
  { repeat split; vm_compute; discriminate. }
  destruct (read_result_text _ _ _ _ _ Hc eq_refl)
    as (_ & _ & Hpreview & Hwarn & _ & Htxt & Hword & _).
  split; [apply Hwarn; split; reflexivity|].
  split; [apply Hpreview; constructor|].
  split.
  - destruct (Htxt eq_refl (Forall_nil _)) as (b & Hb & Hin).
    injection Hb as <-; exact Hin.
  - apply Hword; [discriminate|reflexivity|discriminate|constructor
                 |intros _; constructor|repeat constructor].
Defined.

(** ** A PDF in App1 and App2 *)

Section PdfBranch.

Variables (a : app_id) (env : Env) (w : Widgets) (u : UploadedFile).
Variable text : str.
Hypothesis Happ : a <> app3.
Hypothesis Huploaded : uploaded_file w = Some u.
Hypothesis Hpdf : endswith (lower (name u)) (lit ".pdf") = true.
Hypothesis Hextracted : snd (pdf_extractor a env (content u)) = inr text.

(** App1 and App2 on a PDF whose extraction returns [text]: the operation
    box, the text box and Process are not looked at.  Without text they warn
    and show nothing, whether or not Convert is pressed.  With a text that
    has no encoding as it is shown, the preview ends the run.  Otherwise
    they preview it, and Convert decides the rest: not pressed, nothing is
    offered; pressed without python-docx, the run ends with
    [AttributeError]; pressed with python-docx, the one download is the Word
    file named after the stem, with the paragraphs the library stores for
    the lines of the text, or, where the library refuses a line, the run
    ends with the library's failure and offers nothing. *)
Theorem pdf_is_read_only :
  (forall op box,
     run a env (with_operation (with_user_text w box) op) = run a env w)
  /\ (text = [] ->
      In st_warning (trace (run a env w))
      /\ previews (trace (run a env w)) = []
      /\ downloads (trace (run a env w)) = [])
  /\ (text <> [] -> ~ Forall scalar (read_preview a w text) ->
      snd (run a env w) = inl UnicodeEncodeError
      /\ previews (trace (run a env w)) = []
      /\ downloads (trace (run a env w)) = [])
  /\ (text <> [] -> Forall scalar (read_preview a w text) ->
      previews (trace (run a env w)) = [read_preview a w text]
      /\ (convert_button w = false ->
          downloads (trace (run a env w)) = []
          /\ snd (run a env w) = inr tt)
      /\ (convert_button w = true -> docx env = None ->
          downloads (trace (run a env w)) = []
          /\ snd (run a env w) = inl AttributeError)
      /\ (convert_button w = true -> docx env <> None ->
          forall ps, stored env (split LF text) ps ->
          downloads (trace (run a env w))
          = [(docx_bytes {| paragraphs := ps |},
              stem (name u) ++ lit ".docx", docx_mime)]
          /\ snd (run a env w) = inr tt)
      /\ (convert_button w = true -> docx env <> None ->
          forall cause, refused env (split LF text) cause ->
          downloads (trace (run a env w)) = []
          /\ snd (run a env w) = inl (LibraryError cause))).
Proof.
  split; [|split; [|split]].
  - intros op box; destruct a; [| |contradiction]; model;
      cbn [with_user_text with_operation uploaded_file operation user_text
           process_button convert_button show_preview download_txt
           download_docx download_as_docx download_as_txt show_full_preview];
      rewrite Huploaded, Hpdf; reflexivity.
  - intros ->.
    destruct a; [| |contradiction]; unfold pdf_extractor in Hextracted;
      model; rewrite Huploaded, Hpdf; model.
    all: revert Hextracted; explode; model; intros He; try discriminate He.
    all: try injection He as He; try rewrite He in *; try discriminate;
      try congruence.
    all: cbn [In]; auto 6.
  - intros Hne Hbad; apply truthy_nonempty in Hne.
    unfold read_preview in Hbad.
    destruct a; [| |contradiction]; unfold pdf_extractor in Hextracted;
      model; rewrite Huploaded, Hpdf; model.
    all: revert Hextracted Hbad; explode; model; intros He Hbad;
      try discriminate He.
    all: try injection He as He; try rewrite He in *; try discriminate;
      try congruence.
    all: first [ exfalso; apply Hbad; eapply encode_utf8_some; eassumption
               | split; [reflexivity|split; reflexivity] ].
  - intros Hne Hshown; apply truthy_nonempty in Hne.
    unfold read_preview in *.
    destruct a; [| |contradiction]; unfold pdf_extractor in Hextracted;
      model; rewrite Huploaded, Hpdf; model.
    all: revert Hextracted Hshown; explode; model; intros He Hshown;
      try discriminate He.
    all: try injection He as He; try rewrite He in *; try discriminate;
      try congruence.
    all: try unshown.
    all: split; [reflexivity|].
    all: split; [intros Hc; first [discriminate Hc|split; reflexivity]|].
    all: split;
      [intros Hc Hd; first [discriminate|split; reflexivity]|].
    all: split; intros Hc Hd ? Hb;
      first [ discriminate Hc
            | exfalso; apply Hd; reflexivity
            | built; split; reflexivity ].
Qed.

End PdfBranch.

Lemma pdf_is_read_only_sample :
  previews (trace (run app2 (libraries [Some (lit "Old")] [])
                     (page (file "x.pdf" 1) Read [])))
  = [lit "Old"]
  /\ downloads (trace (run app2 (libraries [Some (lit "Old")] [])
                         (page (file "x.pdf" 1) Read [])))
     = [(docx_bytes {| paragraphs := [lit "Old"] |}, lit "x.docx", docx_mime)]
  /\ (forall op box,
        run app2 (libraries [Some (lit "Old")] [])
          (with_operation (with_user_text (page (file "x.pdf" 1) Read []) box) op)
        = run app2 (libraries [Some (lit "Old")] [])
            (page (file "x.pdf" 1) Read [])).
Proof.
  assert (app2 <> app3) as Ha by discriminate.
  destruct (pdf_is_read_only app2 (libraries [Some (lit "Old")] [])
              (page (file "x.pdf" 1) Read []) (file "x.pdf" 1) (lit "Old")
              Ha eq_refl eq_refl eq_refl)
    as (Hsame & _ & _ & Htext).
  destruct Htext as (Hpreview & _ & _ & Hword & _);
    [discriminate|repeat constructor; vm_compute; reflexivity|].
  split; [exact Hpreview|split; [|exact Hsame]].
  apply Hword; [reflexivity|discriminate|repeat constructor].
Defined.

(** A PDF with a form feed in its text, Convert pressed: python-docx
    refuses the line, and App1 ends with its failure after the preview. *)
Example convert_form_feed :
  run app1 (libraries [Some (lit "a" ++ [0x0C] ++ lit "b")] [])
    (page (file "x.pdf" 1) Read [])
  = ([upload_read; parser_called PDF [];
      st_preview (lit "a" ++ [0x0C] ++ lit "b")],
     inl (LibraryError "All strings must be XML compatible")).
Proof. vm_compute; reflexivity. Qed.

(** Converting a PDF to Word in App1 with python-docx missing. *)
Example convert_without_docx :
  run app1 (pdf_only [Some (lit "Hello")]) (page (file "x.pdf" 1) Read [])
  = ([upload_read; parser_called PDF []; st_preview (lit "Hello")],
     inl AttributeError).
Proof. vm_compute; reflexivity. Qed.

(** ** A text that cannot be encoded *)

Section Unencodable.

Variables (a : app_id) (env : Env) (w : Widgets) (u : UploadedFile).
Variable extracted : str.
Hypothesis Hcomposing : composing a env w u extracted.

(** When the run gets to its operation with a text file asked for, and the
    result text holds a lone surrogate, the run ends with
    [UnicodeEncodeError] at the text export and offers nothing: the Word
    file, which comes after, is not reached. *)
Theorem text_export_failure :
  wants_txt a w = true ->
  operation w = Read \/ strip (user_text w) <> [] ->
  ~ Forall scalar (result_text (operation w) extracted (user_text w)) ->
  snd (run a env w) = inl UnicodeEncodeError
  /\ downloads (trace (run a env w)) = [].
Proof.
  intros Htxt Hbox Hbad.
  apply encode_utf8_none in Hbad.
  assert (operation w <> Read -> truthy (strip (user_text w)) = true) as Hne.
  { intros Hop; destruct Hbox as [Hr|Hr]; [contradiction|].
    apply truthy_nonempty; assumption. }
  destruct Hcomposing as (Hu & Hp & Ha).
  destruct a; [discriminate Htxt| |]; unfold wants_txt in Htxt.
  - destruct Ha as (Hx & He).
    destruct (operation w) eqn:Hop; unfold result_text in Hbad;
      model; rewrite Hu, Hp, Hop, Htxt, Hx, (docx_not_pdf _ Hx), ?Hne
        by discriminate.
    all: revert He Hbad; explode; model; intros He Hbad; try discriminate He.
    all: injection He as <-.
    all: first [ split; reflexivity
               | match goal with
                 | E : encode_utf8 ?x = Some _ |- _ =>
                     cbn [List.app] in Hbad; rewrite Hbad in E; discriminate E
                 end ].
  - destruct Ha as (Hsize & Hallowed & He).
    apply N.ltb_ge in Hsize.
    destruct (operation w) eqn:Hop; unfold result_text in Hbad;
      model; rewrite Hu, Hp, Hop, Htxt, Hsize, Hallowed, ?Hne by discriminate.
    all: revert He Hbad; explode; model; intros He Hbad; try discriminate He.
    all: injection He as <-.
    all: first [ split; reflexivity
               | match goal with
                 | E : encode_utf8 ?x = Some _ |- _ =>
                     cbn [List.app] in Hbad; rewrite Hbad in E; discriminate E
                 end ].
Qed.

End Unencodable.

Lemma text_export_failure_surrogate :
  snd (run app3 (libraries [] [lit "Old"])
         (page (file "x.docx" 1) Append [0xD83D]))
  = inl UnicodeEncodeError
  /\ downloads (trace (run app3 (libraries [] [lit "Old"])
                         (page (file "x.docx" 1) Append [0xD83D])))
     = [].
Proof.
  assert (composing app3 (libraries [] [lit "Old"])
            (page (file "x.docx" 1) Append [0xD83D])
            (file "x.docx" 1) (lit "Old")) as Hc.
  { repeat split; vm_compute; discriminate. }
  apply (text_export_failure _ _ _ _ _ Hc eq_refl).
  - right; discriminate.
  - apply encode_utf8_none; reflexivity.
Defined.

(** ** When the upload is read *)

Section Reads.

Variables (env : Env) (w : Widgets) (u : UploadedFile).
Hypothesis Huploaded : uploaded_file w = Some u.

(** App1 and App2 read the bytes of every upload, on every run, before they
    look at its name.  App3 reads them exactly when Process is pressed and
    the upload has passed the size check and the name check. *)
Theorem upload_read_after_checks (a : app_id) :
  (a <> app3 -> reads (trace (run a env w)) = 1%nat)
  /\ (reads (trace (run app3 env w)) = 1%nat
      <-> process_button w = true
          /\ size u <= 10485760
          /\ App3.allowed_filetype (name u) = true).
Proof.
  split.
  - intros Ha; destruct a; [| |contradiction]; model; rewrite Huploaded.
    all: explode; model; reflexivity.
  - rewrite <- max_file_size, <- N.ltb_ge.
    model; rewrite Huploaded.
    explode; model; cbn.
    all: split; [intros H; try discriminate H; auto|intros (H1 & H2 & H3)].
    all: first [reflexivity|discriminate].
Qed.

End Reads.

Lemma upload_read_after_checks_png :
  reads (trace (run app1 (libraries [] []) (page (file "image.png" 1) Read [])))
  = 1%nat.
Proof.
  refine (proj1 (upload_read_after_checks (libraries [] [])
                   (page (file "image.png" 1) Read []) (file "image.png" 1)
                   eq_refl app1) _).
  discriminate.
Defined.

Example unsupported_not_read_in_app3 :
  run app3 (libraries [] []) (page (file "image.png" 1) Read [])
  = ([st_error UnsupportedFormat], inr tt).
Proof. vm_compute; reflexivity. Qed.

(** ** Previews *)

(** The short preview: a text of at most 2000 characters is shown as it is;
    a longer one is cut to its first 2000 characters, followed by
    ["\n\n... (truncated)"]; a preview never has more than 2017 characters. *)
Theorem preview_cut (text : str) :
  (length text <= 2000 -> first2000 text = text)%nat
  /\ (2000 < length text ->
      first2000 text = firstn 2000 text ++ truncated_mark)%nat
  /\ (length (first2000 text) <= 2017)%nat
  /\ firstn 2000 (first2000 text) = firstn 2000 text.
Proof.
  unfold first2000.
  change (blank_line ++ lit "... (truncated)") with truncated_mark.
  destruct (Nat.ltb_spec 2000 (length text)) as [Hlong|Hshort].
  - split; [lia|]. split; [reflexivity|].
    split.
    + rewrite length_app, length_firstn.
      change (length truncated_mark) with 17%nat; lia.
    + rewrite firstn_app, length_firstn.
      replace (2000 - Nat.min 2000 (length text))%nat with 0%nat by lia.
      rewrite firstn_firstn, Nat.min_id; cbn [firstn]; apply app_nil_r.
  - rewrite app_nil_r.
    split; [intros _; apply firstn_all2; assumption|].
    split; [intros Hlong; exfalso; lia|].
    split; [rewrite length_firstn; lia|].
    apply firstn_firstn.
Qed.

(** ** A Word export read again *)

Section Reread.

Lemma split_joined_paragraphs (ks : list str) :
  Forall (fun k => k <> [] /\ ~ In LF k) ks ->
  filter truthy (split LF (join blank_line ks)) = ks.
Proof.
  induction 1 as [|k ks (Hk & Hfree) _ IH]; [reflexivity|].
  destruct ks as [|k' ks].
  - cbn [join]; rewrite split_line by assumption.
    apply truthy_nonempty in Hk; cbn [filter]; rewrite Hk; reflexivity.
  - rewrite join_cons.
    change (k ++ blank_line ++ join blank_line (k' :: ks))
      with (k ++ LF :: LF :: join blank_line (k' :: ks)).
    rewrite split_app_sep by assumption.
    change (LF :: join blank_line (k' :: ks))
      with ([] ++ LF :: join blank_line (k' :: ks)).
    rewrite split_app_sep by (simpl; tauto).
    apply truthy_nonempty in Hk; cbn [filter truthy]; rewrite Hk, IH.
    reflexivity.
Qed.

(** A text made of paragraphs without line feeds, a blank line between
    them and no whitespace at its ends, whose lines python-docx stores as
    they are, survives the way through a Word file: built into a document by
    a script and read back from it by a script, it is extracted as it was. *)
Theorem word_export_read_again (a a' : app_id) (env : Env) (data : bytes)
  (opener : bytes -> string + list str) (ks : list str) (d : Document) :
  docx env = Some opener ->
  Forall (fun k => k <> [] /\ ~ In LF k) ks ->
  strip (join blank_line ks) = join blank_line ks ->
  verbatim env (split LF (join blank_line ks)) ->
  snd (docx_builder a env (join blank_line ks)) = inr (docx_bytes d) ->
  opener data = inr (paragraphs d) ->
  snd (docx_extractor a' env data) = inr (join blank_line ks).
Proof.
  intros Hdocx Hks Hbare Hv Hbuilt Hread.
  assert (paragraphs d = split LF (join blank_line ks)) as Hd.
  { apply (stored_verbatim env); [exact Hv|].
    apply built_stored.
    destruct a; cbv [docx_builder App1.create_docx_bytes_from_text
                     App2.create_docx_bytes_from_text
                     App3.create_docx_bytes_from_text ret raise snd] in Hbuilt;
      rewrite Hdocx in Hbuilt;
      destruct (add_lines env new_document (split LF (join blank_line ks)))
        as [cause|d'];
      try discriminate Hbuilt; injection Hbuilt as ->; reflexivity. }
  rewrite Hd in Hread.
  destruct a'; cbv [docx_extractor App1.extract_docx_text
                    App2.extract_docx_text App3.extract_text_from_docx_bytes
                    bind emit ret snd];
    rewrite Hdocx, Hread, split_joined_paragraphs, Hbare by assumption;
    reflexivity.
Qed.

End Reread.

Lemma word_export_read_again_sample :
  snd (docx_extractor app3 (libraries [] [lit "Old"; []; lit "New"]) [])
  = inr (lit "Old" ++ [LF; LF] ++ lit "New").
Proof.
  apply (word_export_read_again app1 app3
           (libraries [] [lit "Old"; []; lit "New"]) []
           (fun _ => inr [lit "Old"; []; lit "New"]) [lit "Old"; lit "New"]
           {| paragraphs := [lit "Old"; []; lit "New"] |} eq_refl).
  - repeat constructor; try discriminate; vm_compute; intuition discriminate.
  - reflexivity.
  - repeat constructor.
  - reflexivity.
  - reflexivity.
Defined.

(** A paragraph with a line feed in it does not survive: [add_paragraph] is
    called once per line.  Nor does one with a carriage return, which
    python-docx keeps as a line break. *)
Example line_feed_splits_paragraph :
  docx_builder app3 (libraries [] []) (lit "a" ++ [LF] ++ lit "b")
  = ([], inr (docx_bytes {| paragraphs := [lit "a"; lit "b"] |}))
  /\ docx_builder app3 (libraries [] []) (lit "a" ++ [0x0D] ++ lit "b")
     = ([], inr (docx_bytes {| paragraphs := [lit "a" ++ [LF] ++ lit "b"] |})).
Proof. split; reflexivity. Qed.

(** ** Stems *)

(** The stem of a plain file name (no ["/"]) that ends in a dot and an
    extension without dots: the part before that dot when it has a character
    other than a dot, the whole name otherwise, so that an upload named
    [".pdf"] gives exports named [".pdf_extracted.txt"]. *)
Theorem stem_of_plain_name (b x : str) :
  ~ In 0x2F (b ++ 0x2E :: x) -> ~ In 0x2E x ->
  stem (b ++ 0x2E :: x) = if has_non_dot b then b else b ++ 0x2E :: x.
Proof.
  intros Hsep Hdot; unfold stem.
  destruct (has_non_dot b) eqn:Hb.
  - rewrite splitext_plain by assumption; reflexivity.
  - rewrite splitext_leading_dots by assumption; reflexivity.
Qed.

Lemma stem_of_plain_name_sample :
  stem (lit "Annual.Report" ++ 0x2E :: lit "DOCX") = lit "Annual.Report".
Proof.
  apply (stem_of_plain_name (lit "Annual.Report") (lit "DOCX")).
  - vm_compute; intuition discriminate.
  - vm_compute; intuition discriminate.
Defined.

(** ** The preview of thirty lines *)

Section LinePreview.

Lemma splitlines_from_plain (s cur : str) :
  plain_breaks s -> last s 0 <> LF -> cur <> [] \/ s <> [] ->
  splitlines_from cur s
  = match split LF s with
    | l :: ls => (rev cur ++ l) :: ls
    | [] => []
    end.
Proof.
  revert cur; induction s as [|c r IH]; intros cur Hplain Hlast Hne.
  - destruct Hne as [Hne|Hne]; [|contradiction].
    destruct cur as [|x cur]; [contradiction|].
    cbn [splitlines_from split]; rewrite app_nil_r; reflexivity.
  - inversion Hplain as [|? ? Hc Hr]; subst.
    cbn [splitlines_from split].
    destruct (N.eqb_spec c 0x0D) as [->|Hcr].
    { specialize (Hc eq_refl); discriminate Hc. }
    destruct (is_linebreak c) eqn:Hbreak.
    + rewrite (Hc eq_refl), N.eqb_refl.
      assert (r <> []) as Hrne.
      { intros ->; apply Hlast; cbn [last]; apply Hc; reflexivity. }
      assert (last r 0 <> LF) as Hrlast.
      { destruct r as [|d r]; [contradiction|exact Hlast]. }
      rewrite (IH [] Hr Hrlast) by (right; exact Hrne).
      pose proof (split_nonempty LF r) as Hs.
      destruct (split LF r) as [|l ls]; [contradiction|].
      rewrite app_nil_r; reflexivity.
    + destruct (N.eqb_spec c LF) as [->|Hlf]; [discriminate Hbreak|].
      assert (last r 0 <> LF) as Hrlast.
      { destruct r as [|d r]; [discriminate|exact Hlast]. }
      rewrite (IH (c :: cur) Hr Hrlast) by (left; discriminate).
      pose proof (split_nonempty LF r) as Hs.
      destruct (split LF r) as [|l ls]; [contradiction|].
      cbn [rev]; rewrite <- app_assoc; reflexivity.
Qed.

Lemma bare_last (text : str) : bare text -> last text 0 <> LF.
Proof.
  intros (_ & Hend).
  destruct text as [|c r]; [discriminate|].
  destruct (@exists_last _ (c :: r)) as (r' & d & E); [discriminate|].
  rewrite E, last_last; intros ->.
  specialize (Hend r' LF E); discriminate Hend.
Qed.

Lemma splitlines_plain (text : str) :
  plain_breaks text -> bare text -> text <> [] ->
  splitlines text = split LF text.
Proof.
  intros Hplain Hbare Hne; unfold splitlines.
  rewrite splitlines_from_plain by auto using bare_last.
  pose proof (split_nonempty LF text) as Hs.
  destruct (split LF text); [contradiction|reflexivity].
Qed.

(** The preview of App3 under Read, for a text with no whitespace at its
    ends (any extracted text) whose only line boundary is the line feed.
    With fewer than thirty line feeds the text is shown as it is; otherwise
    its first thirty lines are shown, followed by ["\n\n... (truncated)"]. *)
Theorem line_preview (text : str) :
  plain_breaks text -> bare text ->
  ((count_occ N.eq_dec text LF < 30)%nat -> first30lines text = text)
  /\ ((30 <= count_occ N.eq_dec text LF)%nat ->
      first30lines text
      = join [LF] (firstn 30 (split LF text)) ++ truncated_mark).
Proof.
  intros Hplain Hbare.
  destruct text as [|c r] eqn:E.
  - split; [reflexivity|cbn [count_occ]; lia].
  - rewrite <- E in *.
    assert (text <> []) as Hne by (rewrite E; discriminate).
    unfold first30lines.
    rewrite splitlines_plain, split_length by assumption.
    change (blank_line ++ lit "... (truncated)") with truncated_mark.
    destruct (Nat.ltb_spec 30 (S (count_occ N.eq_dec text LF))) as [Hlong|Hshort].
    + split; [lia|reflexivity].
    + split; [intros _|lia].
      rewrite firstn_all2 by (rewrite split_length; exact Hshort).
      rewrite join_split; apply app_nil_r.
Qed.

End LinePreview.

Lemma line_preview_sample :
  first30lines (lit "Hello" ++ [LF; LF] ++ lit "World")
  = lit "Hello" ++ [LF; LF] ++ lit "World".
Proof.
  refine (proj1 (line_preview (lit "Hello" ++ [LF; LF] ++ lit "World") _ _) _).
  - repeat constructor; vm_compute; discriminate.
  - split; intros c r E.
    + injection E as <- _; reflexivity.
    + change (lit "Hello" ++ [LF; LF] ++ lit "World")
        with ((lit "Hello" ++ [LF; LF] ++ lit "Worl") ++ [100]) in E.
      apply app_inj_tail in E; destruct E as [_ <-]; reflexivity.
  - vm_compute; lia.
Defined.

(** Another line boundary is shown as a line feed: the preview of
    ["a\r\nb"] is ["a\nb"]. *)
Example carriage_return_preview :
  first30lines (lit "a" ++ [13; 10] ++ lit "b") = lit "a" ++ [LF] ++ lit "b".
Proof. reflexivity. Qed.
